(** * langgraph-demo: the research-agent graphs, their state merge and the
      remote assistant lookup

    A shallow embedding of
      - [src/agents/simple/graph.py]               (module [Simple]),
      - [src/agents/deep/research_agent/tools.py]  (module [Tools]),
      - [src/agents/deep/agent.py]                 (module [Deep]),
      - [src/main.py]                              (module [Main]),
    together with the parts of the runtime these files rely on: the
    [add_messages] reducer, the channel update of a state graph, the
    [with] statement and the fallback wrapper around a model call. The
    chat models, the tool server, the sandbox provider, the deep agent and
    the assistants service are collaborators whose answers are parameters
    of a run. *)

From Stdlib Require Import QArith.QArith_base.
From stdpp Require Import base strings list gmap pretty.

Open Scope string_scope.

(** ** Outcomes of calls and the world-passing monad

    A Python call returns a value, raises an exception, or - at an [await] -
    is interrupted by cancellation ([asyncio.CancelledError]). *)

Inductive exn : Type :=
  | KeyError (key : string)
  | ValueError (msg : string)
  | GraphRecursionError
  | CollaboratorError (msg : string).

Inductive outcome (A : Type) : Type :=
  | Returned (a : A)
  | Raised (e : exn)
  | Cancelled.
Arguments Returned {A} a.
Arguments Raised {A} e.
Arguments Cancelled {A}.

Definition is_returned {A} (o : outcome A) : bool :=
  match o with Returned _ => true | _ => false end.

(** A computation over a world [W]: the world is threaded through, an
    exception or a cancellation stops the rest of the computation and keeps
    the world reached so far. *)
Definition M (W A : Type) : Type := W → outcome A * W.

Global Instance M_ret {W} : MRet (M W) := λ A a w, (Returned a, w).

Global Instance M_bind {W} : MBind (M W) := λ A B f m w,
  match m w with
  | (Returned a, w') => f a w'
  | (Raised e, w') => (Raised e, w')
  | (Cancelled, w') => (Cancelled, w')
  end.

Definition lift_outcome {W A} (o : outcome A) : M W A := λ w, (o, w).

Definition raise {W A} (e : exn) : M W A := lift_outcome (Raised e).

(** ** Messages *)

(** A message id is a string. The ids produced by [uuid.uuid4()] are kept
    apart from the ids a caller or a provider supplies and are numbered by
    the order in which they are drawn. *)
Inductive MsgId : Type :=
  | Given (s : string)
  | Uuid (n : nat).

Global Instance MsgId_eq_dec : EqDecision MsgId.
Proof. solve_decision. Defined.

Global Instance MsgId_countable : Countable MsgId.
Proof.
  refine (inj_countable'
    (λ i, match i with Given s => inl s | Uuid n => inr n end)
    (λ x, match x with inl s => Given s | inr n => Uuid n end) _).
  by intros [].
Defined.

Inductive MsgType : Type := human | ai | system | tool | remove.

Global Instance MsgType_eq_dec : EqDecision MsgType.
Proof. solve_decision. Defined.

Record Message : Type := mkMessage {
  msg_type : MsgType;
  content : string;
  id : option MsgId;
}.

Global Instance Message_eq_dec : EqDecision Message.
Proof. solve_decision. Defined.

Definition HumanMessage (c : string) : Message :=
  {| msg_type := human; content := c; id := None |}.

Definition AIMessage (c : string) (i : option MsgId) : Message :=
  {| msg_type := ai; content := c; id := i |}.

Definition RemoveMessage (i : MsgId) : Message :=
  {| msg_type := remove; content := ""; id := Some i |}.

Definition REMOVE_ALL_MESSAGES : MsgId := Given "__remove_all__".

Definition with_id (m : Message) (i : MsgId) : Message :=
  {| msg_type := msg_type m; content := content m; id := Some i |}.

Definition is_remove (m : Message) : bool :=
  bool_decide (msg_type m = remove).

Definition has_id (m : Message) : Prop := is_Some (id m).

(** ** What the collaborators exchange *)

Definition Tool : Type := string.

Record ChatModel : Type := mkChatModel {
  model_id : string;
  model_temperature : Q;
}.

Record McpServer : Type := mkMcpServer {
  mcp_command : string;
  mcp_args : list string;
  mcp_env : gmap string string;
  mcp_transport : string;
}.

Record SandboxBackend : Type := mkSandboxBackend { sandbox_id : string }.

Record CompositeBackend : Type := mkCompositeBackend {
  default_backend : SandboxBackend;
  routes : gmap string SandboxBackend;
}.

Inductive Middleware : Type :=
  | ModelCallLimitMiddleware (thread_limit : Z)
  | ToolCallLimitMiddleware (thread_limit : Z)
  | ModelFallbackMiddleware (first_model : string)
  | ModelRetryMiddleware
  | ToolRetryMiddleware.

Record SubAgent : Type := mkSubAgent {
  sa_name : string;
  sa_description : string;
  sa_system_prompt : string;
  sa_tools : list Tool;
}.

(** The keyword arguments of [create_deep_agent]. *)
Record DeepAgentSpec : Type := mkDeepAgentSpec {
  spec_model : ChatModel;
  spec_tools : list Tool;
  spec_system_prompt : string;
  spec_middleware : list Middleware;
  spec_subagents : list SubAgent;
  spec_backend : CompositeBackend;
}.

(** The dict an agent invocation returns; [result_messages] is its
    ["messages"] entry when it has one. *)
Record AgentResult : Type := mkAgentResult {
  result_messages : option (list Message);
}.

Definition DeepAgent : Type := list Message → outcome AgentResult.

(** ** The world of a graph run *)

Inductive Event : Type :=
  | EvNode (name : string)
  | EvSandboxEnter (provider setup_script : string)
  | EvCreateDeepAgent (spec : DeepAgentSpec)
  | EvAgentInvoke (input : list Message)
  | EvSandboxExit.

Record World : Type := mkWorld {
  next_uuid : nat;
  events : list Event;
}.

Definition uuid4 : M World MsgId := λ w,
  (Returned (Uuid (next_uuid w)),
   {| next_uuid := S (next_uuid w); events := events w |}).

Definition emit (e : Event) : M World () := λ w,
  (Returned (), {| next_uuid := next_uuid w; events := events w ++ [e] |}).

(** ** The [add_messages] reducer (langgraph.graph.message)

    [add_messages(left, right)] gives every message without an id a fresh
    uuid, then merges [right] into a copy of [left]: a message whose id is
    already present replaces the message stored under that id, a
    [RemoveMessage] deletes it, any other message is appended. A
    [RemoveMessage] carrying [REMOVE_ALL_MESSAGES] discards everything up to
    and including itself. *)

Definition assign_id (m : Message) : M World Message :=
  match id m with
  | None => i ← uuid4; mret (with_id m i)
  | Some _ => mret m
  end.

Fixpoint assign_ids (ms : list Message) : M World (list Message) :=
  match ms with
  | [] => mret []
  | m :: ms' =>
      m' ← assign_id m;
      rest ← assign_ids ms';
      mret (m' :: rest)
  end.

Definition is_remove_all (m : Message) : bool :=
  is_remove m && bool_decide (id m = Some REMOVE_ALL_MESSAGES).

(** The loop [for idx, m in enumerate(right)] keeps the last index at which
    a remove-all marker stands. *)
Fixpoint remove_all_idx_from (idx : nat) (right : list Message)
    (found : option nat) : option nat :=
  match right with
  | [] => found
  | m :: right' =>
      remove_all_idx_from (S idx) right'
        (if is_remove_all m then Some idx else found)
  end.

Definition remove_all_idx (right : list Message) : option nat :=
  remove_all_idx_from 0 right None.

(** [{m.id: i for i, m in enumerate(merged)}]: a later message with the same
    id overwrites the index of an earlier one. *)
Fixpoint index_by_id_from (i : nat) (ms : list Message)
    (d : gmap (option MsgId) nat) : gmap (option MsgId) nat :=
  match ms with
  | [] => d
  | m :: ms' => index_by_id_from (S i) ms' (<[id m := i]> d)
  end.

Definition index_by_id (ms : list Message) : gmap (option MsgId) nat :=
  index_by_id_from 0 ms ∅.

(** The id of a message as the error message shows it; the [n]-th uuid
    drawn is written [uuid4#n]. *)
Definition id_text (i : option MsgId) : string :=
  match i with
  | Some (Given s) => s
  | Some (Uuid n) => "uuid4#" +:+ pretty n
  | None => "None"
  end.

Record MergeState : Type := mkMergeState {
  merged : list Message;
  merged_by_id : gmap (option MsgId) nat;
  ids_to_remove : gset (option MsgId);
}.

Definition merge_step (st : MergeState) (m : Message) : outcome MergeState :=
  match merged_by_id st !! id m with
  | Some existing_idx =>
      if is_remove m then
        Returned {| merged := merged st;
                    merged_by_id := merged_by_id st;
                    ids_to_remove := {[ id m ]} ∪ ids_to_remove st |}
      else
        Returned {| merged := <[existing_idx := m]> (merged st);
                    merged_by_id := merged_by_id st;
                    ids_to_remove := ids_to_remove st ∖ {[ id m ]} |}
  | None =>
      if is_remove m then
        Raised (ValueError
          ("Attempting to delete a message with an ID that doesn't exist ('"
           +:+ id_text (id m) +:+ "')"))
      else
        Returned {| merged := merged st ++ [m];
                    merged_by_id := <[id m := length (merged st)]> (merged_by_id st);
                    ids_to_remove := ids_to_remove st |}
  end.

Fixpoint merge_loop (right : list Message) (st : MergeState)
    : outcome MergeState :=
  match right with
  | [] => Returned st
  | m :: right' =>
      match merge_step st m with
      | Returned st' => merge_loop right' st'
      | Raised e => Raised e
      | Cancelled => Cancelled
      end
  end.

Definition merge_messages (left right : list Message)
    : outcome (list Message) :=
  match merge_loop right {| merged := left;
                            merged_by_id := index_by_id left;
                            ids_to_remove := ∅ |} with
  | Returned st =>
      Returned (filter (λ m, id m ∉ ids_to_remove st) (merged st))
  | Raised e => Raised e
  | Cancelled => Cancelled
  end.

Definition add_messages (left right : list Message)
    : M World (list Message) :=
  left' ← assign_ids left;
  right' ← assign_ids right;
  match remove_all_idx right' with
  | Some idx => mret (drop (S idx) right')
  | None => lift_outcome (merge_messages left' right')
  end.

(** ** The [with] statement

    [with cm as x: body] calls [cm.__enter__()]; when that raises, nothing
    else happens. Otherwise the body runs and [cm.__exit__] is called
    whichever way the body ends - by returning, by raising, or by a
    cancellation delivered at one of its [await]s - and the body's outcome
    is passed on (the context managers used here do not swallow
    exceptions). An exception raised by [__exit__] itself replaces the
    body's outcome. *)
Definition with_ {W R A} (enter : M W R) (exit_ : R → M W ())
    (body : R → M W A) : M W A := λ w,
  match enter w with
  | (Returned r, w1) =>
      let '(o, w2) := body r w1 in
      match exit_ r w2 with
      | (Returned _, w3) => (o, w3)
      | (Raised e, w3) => (Raised e, w3)
      | (Cancelled, w3) => (Cancelled, w3)
      end
  | (Raised e, w1) => (Raised e, w1)
  | (Cancelled, w1) => (Cancelled, w1)
  end.

(** ** State graphs (langgraph.graph)

    A graph over a state of type [S], node results of type [U] and a run
    context of type [C]. [apply_update] writes a node's result into the
    channels of the state; [initial] holds the channels' initial values. *)

Definition START : string := "__start__".
Definition END : string := "__end__".

Section StateGraph.
Context {S U C : Type}.
Variable initial : S.
Variable apply_update : S → U → M World S.

Definition Node : Type := S → C → M World U.

Record StateGraph : Type := mkStateGraph {
  nodes : list (string * Node);
  edges : list (string * string);
}.

Definition empty_graph : StateGraph := {| nodes := []; edges := [] |}.

Definition add_node (name : string) (f : Node) (g : StateGraph)
    : StateGraph :=
  {| nodes := nodes g ++ [(name, f)]; edges := edges g |}.

Definition add_edge (src dst : string) (g : StateGraph) : StateGraph :=
  {| nodes := nodes g; edges := edges g ++ [(src, dst)] |}.

Record CompiledStateGraph : Type := mkCompiled {
  builder : StateGraph;
  graph_name : string;
  debug : bool;
}.

Definition compile (name : string) (dbg : bool) (g : StateGraph)
    : CompiledStateGraph :=
  {| builder := g; graph_name := name; debug := dbg |}.

Fixpoint find_node (name : string) (ns : list (string * Node))
    : option Node :=
  match ns with
  | [] => None
  | (n, f) :: ns' => if decide (n = name) then Some f else find_node name ns'
  end.

(** The nodes an edge leads to from one of the nodes in [done], without
    the end marker and without repetitions. *)
Definition successors (g : StateGraph) (done : list string) : list string :=
  remove_dups
    (filter (λ n, n ≠ END)
       ((filter (λ e, e.1 ∈ done) (edges g)).*2)).

Definition run_node (g : StateGraph) (s : S) (ctx : C) (name : string)
    : M World U :=
  match find_node name (nodes g) with
  | Some f => _ ← emit (EvNode name); f s ctx
  | None => raise (KeyError name)
  end.

Fixpoint run_nodes (g : StateGraph) (s : S) (ctx : C)
    (names : list string) : M World (list U) :=
  match names with
  | [] => mret []
  | n :: names' =>
      u ← run_node g s ctx n;
      us ← run_nodes g s ctx names';
      mret (u :: us)
  end.

Fixpoint apply_updates (s : S) (us : list U) : M World S :=
  match us with
  | [] => mret s
  | u :: us' => s' ← apply_update s u; apply_updates s' us'
  end.

(** One superstep runs every node of the frontier on the same state and
    then writes their results; the run stops when no node is left and
    fails once [recursion_limit] supersteps are used up. *)
Fixpoint run_steps (recursion_limit : nat) (g : StateGraph) (ctx : C)
    (frontier : list string) (s : S) : M World S :=
  match frontier with
  | [] => mret s
  | _ :: _ =>
      match recursion_limit with
      | O => raise GraphRecursionError
      | Datatypes.S limit' =>
          us ← run_nodes g s ctx frontier;
          s' ← apply_updates s us;
          run_steps limit' g ctx (successors g frontier) s'
      end
  end.

Definition DEFAULT_RECURSION_LIMIT : nat := 25.

Definition ainvoke (cg : CompiledStateGraph) (input : U) (ctx : C)
    : M World S :=
  s ← apply_update initial input;
  run_steps DEFAULT_RECURSION_LIMIT (builder cg) ctx
    (successors (builder cg) [START]) s.
End StateGraph.

Arguments StateGraph : clear implicits.
Arguments CompiledStateGraph : clear implicits.
Arguments Node : clear implicits.

(** ** External collaborators

    Chat models, the MCP tool server, the sandbox provider and the deep
    agent runtime are reached through calls whose results the program does
    not control; [Env] fixes, for one run, what each of these calls does. *)

Record Env : Type := mkEnv {
  today : string;
  environ : gmap string string;
  resolve_model : string → outcome ();
  chat_model_ainvoke : ChatModel → list Message → outcome Message;
  mcp_get_tools : McpServer → outcome (list Tool);
  sandbox_enter : string → string → outcome SandboxBackend;
  sandbox_exit : SandboxBackend → outcome ();
  deep_agent_of : DeepAgentSpec → outcome DeepAgent;
}.

(** [init_chat_model(model=..., temperature=...)] *)
Definition init_chat_model (env : Env) (model : string) (temperature : Q)
    : M World ChatModel :=
  _ ← lift_outcome (resolve_model env model);
  mret {| model_id := model; model_temperature := temperature |}.

(** Python's [bool(x)] on the values a configuration dict holds. *)
Inductive PyValue : Type :=
  | PyNone
  | PyBool (b : bool)
  | PyInt (z : Z)
  | PyStr (s : string).

Definition truthy (v : PyValue) : bool :=
  match v with
  | PyNone => false
  | PyBool b => b
  | PyInt z => bool_decide (z ≠ 0%Z)
  | PyStr s => bool_decide (s ≠ "")
  end.

Record RunnableConfig : Type := mkRunnableConfig {
  configurable : option (gmap string PyValue);
}.

(** [bool(config.get("configurable", {}).get("debug", False))] *)
Definition config_debug (config : RunnableConfig) : bool :=
  truthy (default (PyBool false) (default ∅ (configurable config) !! "debug")).

(** ** String formatting *)

Inductive Fragment (F : Type) : Type :=
  | Lit (s : string)
  | Field (f : F).
Arguments Lit {F} s.
Arguments Field {F} f.

(** [template.format] with keyword arguments [kw], for a template whose replacement fields are
    drawn from [F]. *)
Fixpoint format {F} (template : list (Fragment F)) (kw : F → string)
    : string :=
  match template with
  | [] => ""
  | Lit s :: rest => s +:+ format rest kw
  | Field f :: rest => kw f +:+ format rest kw
  end.

(** The one-character string holding a line feed. *)
Definition newline : string := String (Ascii.ascii_of_nat 10) "".

(** [s * n] *)
Fixpoint str_mul (s : string) (n : nat) : string :=
  match n with
  | O => ""
  | Datatypes.S n' => s +:+ str_mul s n'
  end.

(** * src/agents/simple/graph.py *)
Module Simple.

Definition DEFAULT_MODEL_NAME : string := "claude-sonnet-4-5-20250929".
Definition DEFAULT_TEMPERATURE : Q := 0%Q.

Record Context : Type := mkContext {
  model_name : string;
  temperature : Q;
}.

Definition default_Context : Context :=
  {| model_name := DEFAULT_MODEL_NAME; temperature := DEFAULT_TEMPERATURE |}.

(** [messages: Annotated[list[BaseMessage], add] = field(default_factory=list)] *)
Record State : Type := mkState {
  messages : list Message;
}.

Definition default_State : State := {| messages := [] |}.

(** A node's result: a dict that may hold a ["messages"] entry. *)
Record Update : Type := mkUpdate {
  u_messages : option (list Message);
}.

(** [operator.add] on two lists. *)
Definition add (a b : list Message) : list Message := a ++ b.

Definition apply_update (s : State) (u : Update) : M World State :=
  match u_messages u with
  | Some new => mret {| messages := add (messages s) new |}
  | None => mret s
  end.

Section Graph.
Variable env : Env.

Definition call_model (state : State) (ctx : Context) : M World Update :=
  let model_name := model_name ctx in
  let temperature := temperature ctx in
  model ← init_chat_model env model_name temperature;
  response ← lift_outcome (chat_model_ainvoke env model (messages state));
  mret {| u_messages := Some [response] |}.

Definition build_graph (config : RunnableConfig)
    : CompiledStateGraph State Update Context :=
  let debug := config_debug config in
  let graph := empty_graph in
  let graph := add_node "call_model" call_model graph in
  let graph := add_edge START "call_model" graph in
  let graph := add_edge "call_model" END graph in
  compile "LangGraph" debug graph.
End Graph.
End Simple.

(** ** Model calls under [ModelFallbackMiddleware] (langchain)

    [handler] stands for everything the middleware wraps: the retry layer
    and the provider call, for a given model identifier. The wrapper first
    calls the handler with the agent's own model; when that raises, it calls
    the handler again with each fallback model in turn and re-raises the
    last exception when all of them fail. A cancellation is not an
    [Exception] and passes through. *)
Section ModelCall.
Variable handler : string → list Message → outcome Message.

Fixpoint try_fallbacks (models : list string) (request : list Message)
    (last_exception : exn) : outcome Message :=
  match models with
  | [] => Raised last_exception
  | fallback :: models' =>
      match handler fallback request with
      | Returned r => Returned r
      | Raised e => try_fallbacks models' request e
      | Cancelled => Cancelled
      end
  end.

Definition wrap_model_call (models : list string) (primary : string)
    (request : list Message) : outcome Message :=
  match handler primary request with
  | Returned r => Returned r
  | Raised e => try_fallbacks models request e
  | Cancelled => Cancelled
  end.
End ModelCall.

(** The fallback models and the call ceilings a middleware list carries. *)
Definition fallback_models (mw : list Middleware) : list string :=
  omap (λ m, match m with ModelFallbackMiddleware f => Some f | _ => None end) mw.

Definition model_call_limits (mw : list Middleware) : list Z :=
  omap (λ m, match m with ModelCallLimitMiddleware n => Some n | _ => None end) mw.

Definition tool_call_limits (mw : list Middleware) : list Z :=
  omap (λ m, match m with ToolCallLimitMiddleware n => Some n | _ => None end) mw.

(** A model call of the agent described by [spec]. *)
Definition agent_model_call (handler : string → list Message → outcome Message)
    (spec : DeepAgentSpec) (request : list Message) : outcome Message :=
  wrap_model_call handler (fallback_models (spec_middleware spec))
    (model_id (spec_model spec)) request.

(** * src/agents/deep/research_agent/tools.py *)
Module Tools.
Section Tools.
Variable env : Env.

Definition environ_get (key : string) : M World string :=
  match environ env !! key with
  | Some v => mret v
  | None => raise (KeyError key)
  end.

Definition get_browserbase_mcp_client : M World McpServer :=
  api_key ← environ_get "BROWSERBASE_API_KEY";
  project_id ← environ_get "BROWSERBASE_PROJECT_ID";
  gemini_key ← environ_get "GOOGLE_API_KEY";
  mret {| mcp_command := "npx";
          mcp_args := ["@browserbasehq/mcp"];
          mcp_env := <["BROWSERBASE_API_KEY" := api_key]>
                     (<["BROWSERBASE_PROJECT_ID" := project_id]>
                     (<["GEMINI_API_KEY" := gemini_key]> ∅));
          mcp_transport := "stdio" |}.

Definition think_tool (reflection : string) : string :=
  "Reflection recorded: " +:+ reflection.

Definition static_tools : list Tool := ["think_tool"; "internet_search"].

Definition get_all_tools : M World (list Tool) :=
  client ← get_browserbase_mcp_client;
  mcp_tools ← lift_outcome (mcp_get_tools env client);
  mret (mcp_tools ++ static_tools)%list.
End Tools.
End Tools.

(** * src/agents/deep/agent.py *)
Module Deep.

Definition DEFAULT_MODEL_NAME : string := "claude-sonnet-4-5-20250929".
Definition DEFAULT_TEMPERATURE : Q := 0%Q.
Definition DEFAULT_MAX_CONCURRENT_RESEARCH_UNITS : Z := 3.
Definition DEFAULT_MAX_RESEARCHER_ITERATIONS : Z := 3.

Record Context : Type := mkContext {
  model_name : string;
  temperature : Q;
  max_concurrent_research_units : Z;
  max_researcher_iterations : Z;
}.

Definition default_Context : Context :=
  {| model_name := DEFAULT_MODEL_NAME;
     temperature := DEFAULT_TEMPERATURE;
     max_concurrent_research_units := DEFAULT_MAX_CONCURRENT_RESEARCH_UNITS;
     max_researcher_iterations := DEFAULT_MAX_RESEARCHER_ITERATIONS |}.

(** The state is a dict: each of its keys may be absent. A node's result
    is a dict over the same keys. *)
Record State : Type := mkState {
  messages : option (list Message);
  query : option string;
  research_complete : option bool;
}.

Definition Update : Type := State.

(** The channels of the graph before the input is written: the
    [add_messages] channel starts from the empty list, the two plain
    channels hold nothing. *)
Definition initial_state : State :=
  {| messages := Some []; query := None; research_complete := None |}.

(** Writing a node's result into the channels: [messages] goes through
    its reducer, a plain channel takes the new value, a key the result
    does not hold leaves its channel alone. *)
Definition apply_update (s : State) (u : Update) : M World State :=
  msgs ← match messages u with
         | None => mret (messages s)
         | Some new =>
             match messages s with
             | Some current => r ← add_messages current new; mret (Some r)
             | None => mret (Some new)
             end
         end;
  mret {| messages := msgs;
          query := match query u with
                   | Some q => Some q
                   | None => query s
                   end;
          research_complete := match research_complete u with
                               | Some b => Some b
                               | None => research_complete s
                               end |}.

(** The replacement fields of the two templates of [prompts.py]. *)
Inductive DelegationField : Type :=
  | f_max_concurrent_research_units
  | f_max_researcher_iterations.

Inductive ResearcherField : Type := f_date.

Section Agent.
(** The prompt constants of [research_agent/prompts.py]. *)
Variable RESEARCH_WORKFLOW_INSTRUCTIONS : string.
Variable SUBAGENT_DELEGATION_INSTRUCTIONS : list (Fragment DelegationField).
Variable RESEARCHER_INSTRUCTIONS : list (Fragment ResearcherField).
Variable env : Env.

Definition _get_current_date : string := today env.

Definition _build_instructions (max_concurrent max_iterations : Z)
    : string :=
  RESEARCH_WORKFLOW_INSTRUCTIONS
  +:+ (newline +:+ newline)
  +:+ str_mul "=" 80
  +:+ (newline +:+ newline)
  +:+ format SUBAGENT_DELEGATION_INSTRUCTIONS
        (λ f, match f with
              | f_max_concurrent_research_units => pretty max_concurrent
              | f_max_researcher_iterations => pretty max_iterations
              end).

Definition _create_research_subagent (current_date : string)
    (tools : list Tool) : SubAgent :=
  {| sa_name := "research-agent";
     sa_description := "Delegate research to the sub-agent researcher. Only give this researcher one topic at a time.";
     sa_system_prompt :=
       format RESEARCHER_INSTRUCTIONS (λ f, match f with f_date => current_date end);
     sa_tools := tools |}.

Definition prepare_research (state : State) (ctx : Context)
    : M World Update :=
  let query := default "" (query state) in
  let messages := default [] (messages state) in
  let messages :=
    if bool_decide (query ≠ "") && bool_decide (messages = [])
    then [HumanMessage query]
    else messages in
  mret {| messages := Some messages;
          query := None;
          research_complete := Some false |}.

(** [create_sandbox(provider=..., setup_script_path=...)] as a context
    manager. *)
Definition create_sandbox_enter (provider setup_script_path : string)
    : M World SandboxBackend :=
  b ← lift_outcome (sandbox_enter env provider setup_script_path);
  _ ← emit (EvSandboxEnter provider setup_script_path);
  mret b.

Definition create_sandbox_exit (b : SandboxBackend) : M World () :=
  _ ← emit EvSandboxExit;
  lift_outcome (sandbox_exit env b).

(** [ModelFallbackMiddleware(first_model=...)]: the constructor resolves
    the model it is given by name and raises when that fails. *)
Definition ModelFallbackMiddleware_init (first_model : string)
    : M World Middleware :=
  _ ← lift_outcome (resolve_model env first_model);
  mret (ModelFallbackMiddleware first_model).

(** [create_deep_agent(...)] *)
Definition create_deep_agent (spec : DeepAgentSpec) : M World DeepAgent :=
  _ ← emit (EvCreateDeepAgent spec);
  lift_outcome (deep_agent_of env spec).

Definition run_deep_agent (state : State) (ctx : Context)
    : M World Update :=
  let model_name := model_name ctx in
  let temperature := temperature ctx in
  let max_concurrent := max_concurrent_research_units ctx in
  let max_iterations := max_researcher_iterations ctx in
  let current_date := _get_current_date in
  let instructions := _build_instructions max_concurrent max_iterations in
  tools ← Tools.get_all_tools env;
  let research_sub_agent := _create_research_subagent current_date tools in
  model ← init_chat_model env model_name temperature;
  result ←
    with_ (create_sandbox_enter "daytona" "scripts/sandbox_setup.sh")
          create_sandbox_exit
          (λ sandbox_backend,
             model_fallback ← ModelFallbackMiddleware_init "gpt-4o-mini";
             deep_agent ← create_deep_agent
               {| spec_model := model;
                  spec_tools := tools;
                  spec_system_prompt := instructions;
                  spec_middleware :=
                    [ ModelCallLimitMiddleware 10;
                      ToolCallLimitMiddleware 10;
                      model_fallback;
                      ModelRetryMiddleware;
                      ToolRetryMiddleware ];
                  spec_subagents := [research_sub_agent];
                  spec_backend := {| default_backend := sandbox_backend;
                                     routes := ∅ |} |};
             input ← match messages state with
                     | Some ms => mret ms
                     | None => raise (KeyError "messages")
                     end;
             _ ← emit (EvAgentInvoke input);
             lift_outcome (deep_agent input));
  mret {| messages := Some (default [] (result_messages result));
          query := None;
          research_complete := Some true |}.

(** The agent a run asks for, as a function of the context, of the
    tools [get_all_tools] returned and of the backend the sandbox
    yielded; the model is the one [init_chat_model] returns for the
    context's name and temperature, the fallback middleware the one its
    constructor returns. *)
Definition deep_agent_spec (ctx : Context) (tools : list Tool)
    (sandbox_backend : SandboxBackend) : DeepAgentSpec :=
  {| spec_model := {| model_id := model_name ctx;
                      model_temperature := temperature ctx |};
     spec_tools := tools;
     spec_system_prompt :=
       _build_instructions (max_concurrent_research_units ctx)
                           (max_researcher_iterations ctx);
     spec_middleware :=
       [ ModelCallLimitMiddleware 10;
         ToolCallLimitMiddleware 10;
         ModelFallbackMiddleware "gpt-4o-mini";
         ModelRetryMiddleware;
         ToolRetryMiddleware ];
     spec_subagents := [_create_research_subagent _get_current_date tools];
     spec_backend := {| default_backend := sandbox_backend; routes := ∅ |} |}.

Definition finalize_research (state : State) (ctx : Context)
    : M World Update :=
  mret {| messages := None; query := None; research_complete := Some true |}.

Definition build_graph (config : RunnableConfig)
    : CompiledStateGraph State Update Context :=
  let debug := config_debug config in
  let graph := empty_graph in
  let graph := add_node "prepare_research" prepare_research graph in
  let graph := add_node "run_deep_agent" run_deep_agent graph in
  let graph := add_node "finalize_research" finalize_research graph in
  let graph := add_edge START "prepare_research" graph in
  let graph := add_edge "prepare_research" "run_deep_agent" graph in
  let graph := add_edge "run_deep_agent" "finalize_research" graph in
  let graph := add_edge "finalize_research" END graph in
  compile "Research Agent" debug graph.

(** One run of the compiled graph. *)
Definition run (config : RunnableConfig) (input : State) (ctx : Context)
    : M World State :=
  ainvoke initial_state apply_update (build_graph config) input ctx.
End Agent.
End Deep.

(** * src/main.py *)
Module Main.

Record Assistant : Type := mkAssistant {
  assistant_id : string;
  graph_id : string;
  name : string;
  metadata : gmap string string;
  config : option RunnableConfig;
  context : option Deep.Context;
}.

(** The two calls [get_or_create_assistant] makes on
    [client.assistants], over the state [S] of the service behind the
    client. *)
Class LangGraphClient (S : Type) : Type := {
  assistants_search : gmap string string → M S (list Assistant);
  assistants_create :
    string → option RunnableConfig → option Deep.Context → string → M S Assistant;
}.

Inductive ApiCall : Type :=
  | CallSearch (metadata : gmap string string)
  | CallCreate (graph_id name : string).

(** What a caller can observe: the service, the calls issued on it, and
    the lines written to the logger. *)
Record ClientWorld (S : Type) : Type := mkClientWorld {
  service : S;
  calls : list ApiCall;
  log : list string;
}.
Arguments mkClientWorld {S} _ _ _.
Arguments service {S} _.
Arguments calls {S} _.
Arguments log {S} _.

Section Client.
Context {S : Type} `{LangGraphClient S}.

Definition api_call {A} (c : ApiCall) (op : M S A) : M (ClientWorld S) A :=
  λ w, let '(o, s') := op (service w) in
       (o, {| service := s'; calls := calls w ++ [c]; log := log w |}).

Definition logger_info (line : string) : M (ClientWorld S) () :=
  λ w, (Returned (),
        {| service := service w; calls := calls w; log := log w ++ [line] |}).

Definition get_or_create_assistant (name graph_id : string)
    (config : option RunnableConfig) (context : option Deep.Context)
    : M (ClientWorld S) Assistant :=
  existing ← api_call (CallSearch {[ "name" := name ]})
                      (assistants_search {[ "name" := name ]});
  match existing with
  | first :: _ =>
      _ ← logger_info ("Found existing assistant: " +:+ name);
      mret first
  | [] =>
      _ ← logger_info ("Creating new assistant: " +:+ name);
      api_call (CallCreate graph_id name)
               (assistants_create graph_id config context name)
  end.
End Client.

(** A service kept in memory: it stores each assistant with the fields the
    [create] call carried and answers a search with the assistants whose
    metadata contain every entry of the filter. *)
Definition matches (flt : gmap string string) (a : Assistant) : bool :=
  bool_decide (map_Forall (λ k v, metadata a !! k = Some v) flt).

Definition memory_search (flt : gmap string string)
    : M (list Assistant) (list Assistant) :=
  λ store, (Returned (filter (λ a, matches flt a = true) store), store).

Definition memory_create (graph_id : string) (config : option RunnableConfig)
    (context : option Deep.Context) (name : string)
    : M (list Assistant) Assistant :=
  λ store,
    let a := {| assistant_id := "assistant-" +:+ pretty (length store);
                graph_id := graph_id;
                name := name;
                metadata := ∅;
                config := config;
                context := context |} in
    (Returned a, (store ++ [a])%list).

Definition memory_client : LangGraphClient (list Assistant) :=
  {| assistants_search := memory_search;
     assistants_create := memory_create |}.

(** The two contexts [main] asks for. *)
Definition creative_context : Deep.Context :=
  {| Deep.model_name := "claude-sonnet-4-5-20250929";
     Deep.temperature := (9 # 10)%Q;
     Deep.max_concurrent_research_units := Deep.DEFAULT_MAX_CONCURRENT_RESEARCH_UNITS;
     Deep.max_researcher_iterations := Deep.DEFAULT_MAX_RESEARCHER_ITERATIONS |}.

Definition precise_context : Deep.Context :=
  {| Deep.model_name := "gpt-4o-mini";
     Deep.temperature := (1 # 10)%Q;
     Deep.max_concurrent_research_units := Deep.DEFAULT_MAX_CONCURRENT_RESEARCH_UNITS;
     Deep.max_researcher_iterations := Deep.DEFAULT_MAX_RESEARCHER_ITERATIONS |}.
End Main.

(** * Scoping of the sandbox in a trace

    [sandbox_scoped held trace] reads a trace of events from a point where
    the sandbox is held or not: the sandbox is entered only when it is not
    held, left only when it is held, the agent is created and invoked only
    while it is held, and it is not held when the trace ends. *)
Fixpoint sandbox_scoped (held : bool) (trace : list Event) : bool :=
  match trace with
  | [] => negb held
  | EvSandboxEnter _ _ :: rest => negb held && sandbox_scoped true rest
  | EvCreateDeepAgent _ :: rest => held && sandbox_scoped held rest
  | EvAgentInvoke _ :: rest => held && sandbox_scoped held rest
  | EvSandboxExit :: rest => held && sandbox_scoped false rest
  | EvNode _ :: rest => sandbox_scoped held rest
  end.

(** The stages a trace went through, in order. *)
Definition stages_of (trace : list Event) : list string :=
  omap (λ e, match e with EvNode n => Some n | _ => None end) trace.

(** * Collaborators that succeed

    An agent answers when, given a conversation whose messages carry uuids,
    it returns that conversation followed by at least one message of its
    own; its messages are no removals and carry distinct ids supplied with
    them. *)
Definition new_messages (reply : list Message) : Prop :=
  Forall (λ m, is_remove m = false ∧ ∃ s, id m = Some (Given s)) reply
  ∧ NoDup (id <$> reply).

Definition answers (agent : DeepAgent) : Prop :=
  ∀ msgs, Forall (λ m, is_remove m = false ∧ ∃ n, id m = Some (Uuid n)) msgs →
    ∃ reply,
      agent msgs = Returned {| result_messages := Some (msgs ++ reply)%list |}
      ∧ reply ≠ [] ∧ new_messages reply.

(** Every call [run_deep_agent] makes on a collaborator succeeds. *)
Definition collaborators_succeed (env : Env) : Prop :=
  is_Some (environ env !! "BROWSERBASE_API_KEY")
  ∧ is_Some (environ env !! "BROWSERBASE_PROJECT_ID")
  ∧ is_Some (environ env !! "GOOGLE_API_KEY")
  ∧ (∀ server, is_returned (mcp_get_tools env server) = true)
  ∧ (∀ model, resolve_model env model = Returned ())
  ∧ (∀ provider script, is_returned (sandbox_enter env provider script) = true)
  ∧ (∀ backend, sandbox_exit env backend = Returned ())
  ∧ (∀ spec, ∃ agent, deep_agent_of env spec = Returned agent ∧ answers agent).

(** * Field updates *)

Definition with_max_researcher_iterations (m : Z) (ctx : Deep.Context)
    : Deep.Context :=
  {| Deep.model_name := Deep.model_name ctx;
     Deep.temperature := Deep.temperature ctx;
     Deep.max_concurrent_research_units := Deep.max_concurrent_research_units ctx;
     Deep.max_researcher_iterations := m |}.

Definition with_system_prompt (prompt : string) (spec : DeepAgentSpec)
    : DeepAgentSpec :=
  {| spec_model := spec_model spec;
     spec_tools := spec_tools spec;
     spec_system_prompt := prompt;
     spec_middleware := spec_middleware spec;
     spec_subagents := spec_subagents spec;
     spec_backend := spec_backend spec |}.

(** * Sample collaborators

    One concrete choice of the prompt constants and of the collaborators,
    on which the definitions above can be run. *)

Definition sample_workflow : string := "Follow the research workflow.".

Definition sample_delegation : list (Fragment Deep.DelegationField) :=
  [ Lit "Use at most ";
    Field Deep.f_max_concurrent_research_units;
    Lit " parallel sub-agents and stop after ";
    Field Deep.f_max_researcher_iterations;
    Lit " delegation rounds." ].

Definition sample_researcher : list (Fragment Deep.ResearcherField) :=
  [ Lit "Today is "; Field Deep.f_date; Lit "." ].

Definition sample_reply : Message :=
  AIMessage "LangGraph is a library for stateful agents." (Some (Given "run-1")).

Definition sample_agent : DeepAgent :=
  λ msgs, Returned {| result_messages := Some (msgs ++ [sample_reply])%list |}.

Definition sample_env : Env :=
  {| today := "2025-01-01";
     environ := <["BROWSERBASE_API_KEY" := "key"]>
                (<["BROWSERBASE_PROJECT_ID" := "project"]>
                (<["GOOGLE_API_KEY" := "google"]> ∅));
     resolve_model := λ _, Returned ();
     chat_model_ainvoke := λ _ _, Returned (AIMessage "ok" None);
     mcp_get_tools := λ _, Returned ["browserbase_stagehand_navigate"];
     sandbox_enter := λ _ _, Returned {| sandbox_id := "sandbox-1" |};
     sandbox_exit := λ _, Returned ();
     deep_agent_of := λ _, Returned sample_agent |}.

Definition sample_world : World := {| next_uuid := 0; events := [] |}.

Definition sample_config : RunnableConfig := {| configurable := None |}.

Definition sample_input : Deep.State :=
  {| Deep.messages := Some [];
     Deep.query := Some "What is LangGraph?";
     Deep.research_complete := None |}.

(** A provider on which exactly the model [unusable] fails. *)
Definition handler_without (unusable : string)
    : string → list Message → outcome Message :=
  λ model _,
    if decide (model = unusable)
    then Raised (CollaboratorError "model unavailable")
    else Returned (AIMessage ("answer of " +:+ model) None).

(** A service that already lists one assistant under its name. *)
Definition sample_assistant : Main.Assistant :=
  {| Main.assistant_id := "assistant-0";
     Main.graph_id := "deep";
     Main.name := "Creative Assistant";
     Main.metadata := {[ "name" := "Creative Assistant" ]};
     Main.config := None;
     Main.context := Some Main.creative_context |}.

Definition sample_client_world : Main.ClientWorld (list Main.Assistant) :=
  {| Main.service := [sample_assistant]; Main.calls := []; Main.log := [] |}.

Definition empty_client_world : Main.ClientWorld (list Main.Assistant) :=
  {| Main.service := []; Main.calls := []; Main.log := [] |}.

(** * Statements of the specification, as worded *)

(** A setting is configurable through the context when two contexts can
    give it different values. *)
Definition varies_with_context {A} (setting : Deep.Context → A) : Prop :=
  ∃ ctx1 ctx2, setting ctx1 ≠ setting ctx2.

(** "Run on the state with the query and no messages, and every stage
    completing, the graph goes through the three stages in order and ends
    with the completion flag set and with at least one message beyond the
    human query message." *)
Definition end_to_end_as_worded : Prop :=
  ∀ workflow delegation researcher env config ctx w final w',
    Deep.run workflow delegation researcher env config sample_input ctx w
      = (Returned final, w') →
    stages_of (events w') =
      (stages_of (events w) ++
         ["prepare_research"; "run_deep_agent"; "finalize_research"])%list ∧
    Deep.research_complete final = Some true ∧
    ∃ human more,
      Deep.messages final = Some (human :: more) ∧
      content human = "What is LangGraph?" ∧ more ≠ [].

(** "The model-call ceiling and the tool-call ceiling are configurable via
    the Context." *)
Definition call_ceilings_configurable : Prop :=
  ∀ workflow delegation researcher env tools sandbox,
    varies_with_context (λ ctx, model_call_limits (spec_middleware
      (Deep.deep_agent_spec workflow delegation researcher env ctx tools sandbox)))
    ∧ varies_with_context (λ ctx, tool_call_limits (spec_middleware
      (Deep.deep_agent_spec workflow delegation researcher env ctx tools sandbox))).

(** "A delegate task stops after exactly M iterations, M taken from the
    Context." What runs a delegate is given the sub-agent - which brings its
    own system prompt - together with the model, the tools, the middleware
    and the backend of the agent, and the task; [delegate_iterations] is
    the number of iterations it makes. *)
Definition iteration_ceiling_enforced
    (delegate_iterations :
       ChatModel → list Tool → list Middleware → CompositeBackend →
       SubAgent → string → nat) : Prop :=
  ∀ workflow delegation researcher env ctx tools sandbox task delegate,
    let spec :=
      Deep.deep_agent_spec workflow delegation researcher env ctx tools sandbox in
    delegate ∈ spec_subagents spec →
    (0 ≤ Deep.max_researcher_iterations ctx)%Z →
    Z.of_nat (delegate_iterations (spec_model spec) (spec_tools spec)
                (spec_middleware spec) (spec_backend spec) delegate task)
    = Deep.max_researcher_iterations ctx.

(** "No stage before [finalize_research] sets the completion flag to
    true." *)
Definition completion_set_only_by_finalize : Prop :=
  ∀ workflow delegation researcher env config name stage state ctx w u w',
    (name, stage) ∈ nodes
       (builder (Deep.build_graph workflow delegation researcher env config)) →
    name ≠ "finalize_research" →
    stage state ctx w = (Returned u, w') →
    Deep.research_complete u ≠ Some true.

(** "Merging a result that holds messages appends them to the stored
    messages": the merged messages read, in order, as the stored ones
    followed by the new ones. *)
Definition deep_merge_appends : Prop :=
  ∀ s u w current new,
    Deep.messages s = Some current → Deep.messages u = Some new →
    ∃ s' w' merged,
      Deep.apply_update s u w = (Returned s', w') ∧
      Deep.messages s' = Some merged ∧
      content <$> merged = content <$> (current ++ new)%list.

(** "When the primary model alone is unusable, a model call of the agent
    still succeeds." *)
Definition fallback_rescues : Prop :=
  ∀ workflow delegation researcher env ctx tools sandbox handler request,
    (∀ model req,
       is_returned (handler model req) = false ↔ model = Deep.model_name ctx) →
    is_returned
      (agent_model_call handler
         (Deep.deep_agent_spec workflow delegation researcher env ctx tools sandbox)
         request) = true.

(** * More of src/agents/deep/research_agent/tools.py *)

(** [get_browserbase_tools()] *)
Definition get_browserbase_tools (env : Env) : M World (list Tool) :=
  client ← Tools.get_browserbase_mcp_client env;
  lift_outcome (mcp_get_tools env client).

Record TavilyClient : Type := mkTavilyClient { tavily_api_key : string }.

Section Search.
(** What a search answers, and the search service behind
    [TavilyClient.search]: it is given the client's key, the query and
    [max_results]. *)
Variable SearchResponse : Type.
Variable env : Env.
Variable tavily_search : string → string → Z → outcome SearchResponse.

Definition get_tavily_client : M World TavilyClient :=
  api_key ← Tools.environ_get env "TAVILY_API_KEY";
  mret {| tavily_api_key := api_key |}.

(** [internet_search(query, max_results=5)]; [None] stands for a call that
    leaves [max_results] out. *)
Definition internet_search (query : string) (max_results : option Z)
    : M World SearchResponse :=
  let max_results := default 5%Z max_results in
  client ← get_tavily_client;
  lift_outcome (tavily_search (tavily_api_key client) query max_results).
End Search.

(** * Runs of the two graphs *)

(** The simple graph starts from the defaults of its state. *)
Definition simple_run (env : Env) (config : RunnableConfig)
    (input : Simple.Update) (ctx : Simple.Context) : M World Simple.State :=
  ainvoke Simple.default_State Simple.apply_update
    (Simple.build_graph env config) input ctx.

(** [stamp_from n ms]: the messages [ms] with the uuids [n], [n+1], ... *)
Fixpoint stamp_from (n : nat) (ms : list Message) : list Message :=
  match ms with
  | [] => []
  | m :: ms' => with_id m (Uuid n) :: stamp_from (S n) ms'
  end.

(** The later of two results wins on every key it holds. *)
Definition later_wins (u1 u2 : Deep.Update) : Deep.Update :=
  {| Deep.messages := match Deep.messages u2 with
                      | Some ms => Some ms
                      | None => Deep.messages u1
                      end;
     Deep.query := match Deep.query u2 with
                   | Some q => Some q
                   | None => Deep.query u1
                   end;
     Deep.research_complete := match Deep.research_complete u2 with
                               | Some b => Some b
                               | None => Deep.research_complete u1
                               end |}.

(** A state without the [messages] key, as a direct caller of a stage may
    pass it. *)
Definition state_without_messages : Deep.State :=
  {| Deep.messages := None; Deep.query := Some "What is LangGraph?";
     Deep.research_complete := None |}.

(** The sample collaborators, with a sandbox whose release fails. *)
Definition sample_env_release_fails : Env :=
  {| today := today sample_env;
     environ := environ sample_env;
     resolve_model := resolve_model sample_env;
     chat_model_ainvoke := chat_model_ainvoke sample_env;
     mcp_get_tools := mcp_get_tools sample_env;
     sandbox_enter := sandbox_enter sample_env;
     sandbox_exit := λ _, Raised (CollaboratorError "sandbox not deleted");
     deep_agent_of := deep_agent_of sample_env |}.

Definition sample_tools : list Tool :=
  ["browserbase_stagehand_navigate"; "think_tool"; "internet_search"].

Definition sample_backend : SandboxBackend := {| sandbox_id := "sandbox-1" |}.

(** The sample collaborators, with an agent whose answer holds no
    [messages]. *)
Definition sample_env_silent : Env :=
  {| today := today sample_env;
     environ := environ sample_env;
     resolve_model := resolve_model sample_env;
     chat_model_ainvoke := chat_model_ainvoke sample_env;
     mcp_get_tools := mcp_get_tools sample_env;
     sandbox_enter := sandbox_enter sample_env;
     sandbox_exit := sandbox_exit sample_env;
     deep_agent_of := λ _, Returned (λ _, Returned {| result_messages := None |}) |}.

Definition sample_conversation : list Message :=
  [ with_id (HumanMessage "What is LangGraph?") (Uuid 0);
    AIMessage "A library." (Some (Given "run-1")) ].

(** The three stages of the research graph, one after the other: each stage
    is announced in the trace, called on the state reached so far, and its
    result is merged before the next stage starts. *)
Definition research_pipeline (workflow : string)
    (delegation : list (Fragment Deep.DelegationField))
    (researcher : list (Fragment Deep.ResearcherField)) (env : Env)
    (input : Deep.State) (ctx : Deep.Context) : M World Deep.State :=
  s0 ← Deep.apply_update Deep.initial_state input;
  _ ← emit (EvNode "prepare_research");
  u1 ← Deep.prepare_research s0 ctx;
  s1 ← Deep.apply_update s0 u1;
  _ ← emit (EvNode "run_deep_agent");
  u2 ← Deep.run_deep_agent workflow delegation researcher env s1 ctx;
  s2 ← Deep.apply_update s1 u2;
  _ ← emit (EvNode "finalize_research");
  u3 ← Deep.finalize_research s2 ctx;
  Deep.apply_update s2 u3.

(** A client whose service cannot be reached: every call raises. *)
Definition offline_client : Main.LangGraphClient () :=
  {| Main.assistants_search := λ _ s,
       (Raised (CollaboratorError "connection refused"), s);
     Main.assistants_create := λ _ _ _ _ s,
       (Raised (CollaboratorError "connection refused"), s) |}.

Definition offline_world : Main.ClientWorld () :=
  {| Main.service := (); Main.calls := []; Main.log := [] |}.

(** * Properties *)

(** ** Reasoning about computations *)

Lemma bind_returned {W A B} (m : M W A) (f : A → M W B) w a w' :
  m w = (Returned a, w') → (m ≫= f) w = f a w'.
Proof. intros Hm. unfold mbind, M_bind. by rewrite Hm. Qed.

Lemma bind_ret {W A B} (a : A) (f : A → M W B) w :
  (mret a ≫= f) w = f a w.
Proof. done. Qed.

(** ** The reducer *)

Lemma assign_ids_has_id ms w :
  Forall has_id ms → assign_ids ms w = (Returned ms, w).
Proof.
  induction 1 as [|m ms [i Hi] _ IH]; [done|].
  cbn [assign_ids]. unfold assign_id. rewrite Hi.
  rewrite bind_ret. by erewrite bind_returned by exact IH.
Qed.

Lemma remove_all_idx_from_none ms i found :
  Forall (λ m, is_remove m = false) ms →
  remove_all_idx_from i ms found = found.
Proof.
  intros Hms. revert i found.
  induction Hms as [|m ms Hm _ IH]; intros i found; [done|].
  cbn [remove_all_idx_from]. unfold is_remove_all. rewrite Hm. apply IH.
Qed.

Lemma index_by_id_from_other ms i d k :
  k ∉ id <$> ms → index_by_id_from i ms d !! k = d !! k.
Proof.
  revert i d. induction ms as [|m ms IH]; intros i d Hk; [done|].
  rewrite fmap_cons, not_elem_of_cons in Hk. destruct Hk as [Hne Hk].
  cbn [index_by_id_from]. rewrite IH by done. by rewrite lookup_insert_ne.
Qed.

Lemma index_by_id_from_lookup ms i d j m :
  NoDup (id <$> ms) → ms !! j = Some m →
  index_by_id_from i ms d !! id m = Some (i + j).
Proof.
  revert i d j. induction ms as [|m0 ms IH]; intros i d j Hnd Hj; [done|].
  rewrite fmap_cons in Hnd. apply NoDup_cons in Hnd as [Hm0 Hnd].
  cbn [index_by_id_from]. destruct j as [|j]; simplify_eq/=.
  - rewrite index_by_id_from_other by done.
    rewrite lookup_insert_eq. f_equal. lia.
  - rewrite (IH (S i) _ j) by done. f_equal. lia.
Qed.

Lemma index_by_id_lookup ms j m :
  NoDup (id <$> ms) → ms !! j = Some m → index_by_id ms !! id m = Some j.
Proof. intros. unfold index_by_id. by erewrite index_by_id_from_lookup. Qed.

Lemma index_by_id_fresh ms k :
  k ∉ id <$> ms → index_by_id ms !! k = None.
Proof. intros. unfold index_by_id. by rewrite index_by_id_from_other. Qed.

Lemma filter_all {A} (P : A → Prop) `{!∀ x, Decision (P x)} (l : list A) :
  Forall P l → filter P l = l.
Proof.
  induction 1 as [|x l Hx _ IH]; [done|].
  rewrite filter_cons_True by done. by rewrite IH.
Qed.

Lemma not_removed_all (l : list Message) :
  Forall (λ m, id m ∉ (∅ : gset (option MsgId))) l.
Proof. apply Forall_forall. intros m _. apply not_elem_of_empty. Qed.

(** Messages that are already stored, each under its own index, leave the
    merge state as it is. *)
Lemma merge_loop_refresh l rest left d :
  Forall (λ m, is_remove m = false ∧
               ∃ i, d !! id m = Some i ∧ left !! i = Some m) l →
  merge_loop (l ++ rest)
    {| merged := left; merged_by_id := d; ids_to_remove := ∅ |}
  = merge_loop rest
    {| merged := left; merged_by_id := d; ids_to_remove := ∅ |}.
Proof.
  induction 1 as [|m l (Hrm & i & Hd & Hi) _ IH]; [done|].
  cbn [app merge_loop]. unfold merge_step. cbn [merged_by_id merged ids_to_remove].
  rewrite Hd, Hrm. rewrite list_insert_id by done.
  rewrite empty_difference_L. exact IH.
Qed.

(** Messages that are not removals and whose ids are new and distinct are
    appended in order. *)
Lemma merge_loop_append right left d rm :
  (∀ k, k ∉ id <$> left → d !! k = None) →
  Forall (λ m, is_remove m = false) right →
  NoDup (id <$> right) →
  (∀ m, m ∈ right → id m ∉ id <$> left) →
  ∃ d', merge_loop right
          {| merged := left; merged_by_id := d; ids_to_remove := rm |}
        = Returned {| merged := left ++ right;
                      merged_by_id := d';
                      ids_to_remove := rm |}.
Proof.
  revert left d. induction right as [|m right IH]; intros left d Hd Hrm Hnd Hnew.
  - exists d. by rewrite app_nil_r.
  - apply Forall_cons in Hrm as [Hm Hrm].
    rewrite fmap_cons in Hnd. apply NoDup_cons in Hnd as [Hmr Hnd].
    cbn [merge_loop]. unfold merge_step. cbn [merged_by_id merged ids_to_remove].
    rewrite Hd by (apply Hnew; left). rewrite Hm.
    destruct (IH (left ++ [m])%list (<[id m := length left]> d)) as [d' Hd']; try done.
    + intros k Hk. rewrite fmap_app, elem_of_app in Hk.
      rewrite lookup_insert_ne; [apply Hd; tauto|].
      intros <-. apply Hk. right. set_solver.
    + intros m' Hm'. rewrite fmap_app, elem_of_app. intros [Hin|Hin].
      * by apply (Hnew m'); [right|].
      * apply list_elem_of_singleton in Hin. rewrite <- Hin in Hmr.
        apply Hmr. by apply list_elem_of_fmap_2.
    + exists d'. rewrite Hd'. by rewrite <- app_assoc.
Qed.

(** When, once ids are assigned, the new messages are no removals and carry
    ids that are distinct and not yet stored, [add_messages] appends them. *)
Lemma add_messages_new left right w left' w1 right' w2 :
  assign_ids left w = (Returned left', w1) →
  assign_ids right w1 = (Returned right', w2) →
  Forall (λ m, is_remove m = false) right' →
  NoDup (id <$> right') →
  (∀ m, m ∈ right' → id m ∉ id <$> left') →
  add_messages left right w = (Returned (left' ++ right')%list, w2).
Proof.
  intros Hl Hr Hrm Hnd Hnew. unfold add_messages.
  erewrite bind_returned by exact Hl. erewrite bind_returned by exact Hr.
  unfold remove_all_idx. rewrite remove_all_idx_from_none by done.
  unfold lift_outcome, merge_messages.
  destruct (merge_loop_append right' left' (index_by_id left') ∅)
    as [d' ->]; try done.
  - intros k Hk. by apply index_by_id_fresh.
  - cbn [merged ids_to_remove]. rewrite filter_all; [done|apply not_removed_all].
Qed.

(** A result that repeats the stored conversation and continues it with new
    messages leaves the conversation in place and appends the new ones. *)
Lemma add_messages_extend left new w :
  Forall has_id left → Forall (λ m, is_remove m = false) left →
  NoDup (id <$> left) →
  Forall has_id new → Forall (λ m, is_remove m = false) new →
  NoDup (id <$> new) →
  (∀ m, m ∈ new → id m ∉ id <$> left) →
  add_messages left (left ++ new)%list w = (Returned (left ++ new)%list, w).
Proof.
  intros Hidl Hrml Hndl Hidn Hrmn Hndn Hnew. unfold add_messages.
  erewrite bind_returned by (by apply assign_ids_has_id).
  erewrite bind_returned by (apply assign_ids_has_id; by apply Forall_app).
  unfold remove_all_idx.
  rewrite remove_all_idx_from_none by (by apply Forall_app).
  unfold lift_outcome, merge_messages.
  rewrite merge_loop_refresh.
  - destruct (merge_loop_append new left (index_by_id left) ∅)
      as [d' ->]; try done.
    + intros k Hk. by apply index_by_id_fresh.
    + cbn [merged ids_to_remove]. rewrite filter_all; [done|apply not_removed_all].
  - apply Forall_forall. intros m Hm.
    split; [by eapply Forall_forall in Hrml|].
    apply list_elem_of_lookup in Hm as [i Hi].
    exists i. split; [by apply index_by_id_lookup|done].
Qed.

Lemma add_messages_nil_nil w : add_messages [] [] w = (Returned [], w).
Proof. done. Qed.

(** A message that carries the id of a stored message takes its place. *)
Lemma add_messages_replace left i old m w :
  Forall has_id left → NoDup (id <$> left) →
  left !! i = Some old → id m = id old → is_remove m = false →
  add_messages left [m] w = (Returned (<[i := m]> left), w).
Proof.
  intros Hids Hnd Hold Hid Hrm. unfold add_messages.
  erewrite bind_returned by (by apply assign_ids_has_id).
  erewrite bind_returned.
  2:{ apply assign_ids_has_id, Forall_singleton. unfold has_id. rewrite Hid.
      eapply Forall_forall in Hids; [exact Hids|].
      by eapply list_elem_of_lookup_2. }
  unfold remove_all_idx.
  rewrite remove_all_idx_from_none by (by apply Forall_singleton).
  unfold lift_outcome, merge_messages. cbn [merge_loop].
  unfold merge_step. cbn [merged_by_id merged ids_to_remove].
  rewrite Hid, (index_by_id_lookup left i old) by done. rewrite Hrm.
  cbn [merged ids_to_remove]. rewrite empty_difference_L.
  rewrite filter_all; [done|apply not_removed_all].
Qed.

(** ** The stages of the research graph *)

(** C10. Whatever state it is given, [prepare_research] returns without
    touching the world; its result holds the one-element list
    [[HumanMessage(query)]], replacing the messages read from the state,
    exactly when the query read from the state is non-empty and the messages
    read from it are empty, holds the messages read from the state in every
    other case, and always holds [research_complete = False]. A key the
    state lacks is read as the empty string or the empty list, as
    [state.get] does. *)
Theorem prepare_research_update (state : Deep.State) (ctx : Deep.Context)
    (w : World) :
  let query := default "" (Deep.query state) in
  let messages := default [] (Deep.messages state) in
  ∃ u, Deep.prepare_research state ctx w = (Returned u, w) ∧
    ((query ≠ "" ∧ messages = []) →
       Deep.messages u = Some [HumanMessage query]) ∧
    (¬ (query ≠ "" ∧ messages = []) → Deep.messages u = Some messages) ∧
    ((Deep.messages u = Some [HumanMessage query] ∧
      Deep.messages u ≠ Some messages) ↔ (query ≠ "" ∧ messages = [])) ∧
    Deep.query u = None ∧
    Deep.research_complete u = Some false.
Proof.
  intros query messages. eexists. split; [reflexivity|].
  cbn [Deep.messages Deep.query Deep.research_complete].
  fold query messages.
  destruct (decide (query ≠ "")) as [Hq|Hq];
    destruct (decide (messages = [])) as [Hm|Hm].
  - rewrite !bool_decide_eq_true_2 by done. cbn [andb].
    rewrite Hm. split_and!; try done; try tauto.
  - rewrite (bool_decide_eq_false_2 (messages = [])) by done.
    rewrite andb_false_r. split_and!; try done; try tauto.
  - rewrite (bool_decide_eq_false_2 (query ≠ "")) by done. cbn [andb].
    split_and!; try done; try tauto.
  - rewrite (bool_decide_eq_false_2 (query ≠ "")) by done. cbn [andb].
    split_and!; try done; try tauto.
Qed.

(** C6. A key the result of a node does not hold leaves its channel as it
    was: whenever the merge returns, the channels of the absent keys are
    unchanged (and a result without [messages] cannot make the merge fail
    nor touch the world). In particular the result of [finalize_research],
    which holds [research_complete] alone, always merges and leaves
    [messages] and [query] equal to what they were. *)
Theorem apply_update_frame (s : Deep.State) (u : Deep.Update) (w : World) :
  (∀ s' w', Deep.apply_update s u w = (Returned s', w') →
     (Deep.messages u = None → Deep.messages s' = Deep.messages s) ∧
     (Deep.query u = None → Deep.query s' = Deep.query s) ∧
     (Deep.research_complete u = None →
        Deep.research_complete s' = Deep.research_complete s)) ∧
  (Deep.messages u = None →
     ∃ s', Deep.apply_update s u w = (Returned s', w)) ∧
  (∀ state ctx,
     ∃ s', (Deep.finalize_research state ctx ≫= Deep.apply_update s) w
           = (Returned s', w) ∧
       Deep.messages s' = Deep.messages s ∧
       Deep.query s' = Deep.query s ∧
       Deep.research_complete s' = Some true).
Proof.
  split_and!.
  - intros s' w'. unfold Deep.apply_update, mbind, M_bind.
    destruct (Deep.messages u) as [new|] eqn:Hu.
    + destruct (Deep.messages s) as [current|].
      * destruct (add_messages current new w) as [[r| |] w1];
          intros [= <- <-] || intros [=]; cbn.
        split_and!; [done|by intros ->..].
      * intros [= <- <-]; cbn. split_and!; [done|by intros ->..].
    + intros [= <- <-]; cbn. split_and!; [done|by intros ->..].
  - intros Hu. unfold Deep.apply_update. rewrite Hu. by eexists.
  - intros state ctx. eexists. split; [reflexivity|]. done.
Qed.

(** C6, on an instance: a state holding one message, merged with a result
    that holds [research_complete] alone. *)
Lemma apply_update_frame_witness :
  let s := {| Deep.messages := Some [with_id (HumanMessage "hi") (Uuid 0)];
              Deep.query := Some "hi";
              Deep.research_complete := Some false |} in
  let u := {| Deep.messages := None; Deep.query := None;
              Deep.research_complete := Some true |} in
  let w := {| next_uuid := 1; events := [] |} in
  ∃ s', Deep.apply_update s u w = (Returned s', w) ∧
        Deep.messages s' = Deep.messages s ∧ Deep.query s' = Deep.query s.
Proof.
  intros s u w.
  destruct (apply_update_frame s u w) as (Hframe & Htotal & _).
  destruct (Htotal eq_refl) as [s' Hs'].
  exists s'. split; [exact Hs'|].
  destruct (Hframe s' w Hs') as (Hm & Hq & _).
  split; [exact (Hm eq_refl)|exact (Hq eq_refl)].
Defined.

(** ** Running a graph *)

(** A superstep over a single node whose stage returns and whose result
    merges. *)
Lemma run_steps_single {S U C} (apply_update : S → U → M World S)
    (limit : nat) (g : StateGraph S U C) (ctx : C) (name : string)
    (stage : Node S U C) (s s' : S) (u : U) (w w1 w2 : World) :
  find_node name (nodes g) = Some stage →
  stage s ctx {| next_uuid := next_uuid w;
                 events := (events w ++ [EvNode name])%list |}
    = (Returned u, w1) →
  apply_update s u w1 = (Returned s', w2) →
  run_steps apply_update (Datatypes.S limit) g ctx [name] s w
  = run_steps apply_update limit g ctx (successors g [name]) s' w2.
Proof.
  intros Hfind Hstage Hmerge.
  cbn [run_steps run_nodes]. unfold run_node. rewrite Hfind.
  unfold mbind, M_bind, emit, mret, M_ret. rewrite Hstage.
  cbn [apply_updates]. unfold mbind, M_bind, mret, M_ret. by rewrite Hmerge.
Qed.

Section DeepFacts.
Variable workflow : string.
Variable delegation : list (Fragment Deep.DelegationField).
Variable researcher : list (Fragment Deep.ResearcherField).
Variable env : Env.

Local Abbreviation run_deep_agent :=
  (Deep.run_deep_agent workflow delegation researcher env).
Local Abbreviation deep_agent_spec :=
  (Deep.deep_agent_spec workflow delegation researcher env).

Local Ltac step_outcomes :=
  repeat match goal with
  | |- context [match ?o with Returned _ => _ | Raised _ => _ | Cancelled => _ end] =>
      destruct o eqn:?
  | |- context [match ?o with Some _ => _ | None => _ end] =>
      destruct o eqn:?
  | |- context [let '(_, _) := ?p in _] => destruct p eqn:?
  end; simplify_eq/=.

(** The events one call of [run_deep_agent] adds to the trace. *)
Lemma run_deep_agent_trace (state : Deep.State) (ctx : Deep.Context)
    (w : World) :
  ∃ o w' trace,
    run_deep_agent state ctx w = (o, w') ∧
    events w' = (events w ++ trace)%list ∧
    ((trace = [] ∧ is_returned o = false) ∨
     (trace = [EvSandboxEnter "daytona" "scripts/sandbox_setup.sh";
               EvSandboxExit] ∧ is_returned o = false) ∨
     ∃ tools backend,
       (trace = [EvSandboxEnter "daytona" "scripts/sandbox_setup.sh";
                 EvCreateDeepAgent (deep_agent_spec ctx tools backend);
                 EvSandboxExit] ∧ is_returned o = false) ∨
       (∃ input, Deep.messages state = Some input ∧
          trace = [EvSandboxEnter "daytona" "scripts/sandbox_setup.sh";
                   EvCreateDeepAgent (deep_agent_spec ctx tools backend);
                   EvAgentInvoke input;
                   EvSandboxExit])).
Proof.
  unfold Deep.run_deep_agent, Tools.get_all_tools,
    Tools.get_browserbase_mcp_client, Tools.environ_get, init_chat_model,
    with_, Deep.create_sandbox_enter, Deep.create_sandbox_exit,
    Deep.ModelFallbackMiddleware_init, Deep.create_deep_agent, mbind, M_bind,
    mret, M_ret, lift_outcome, raise, emit.
  step_outcomes;
    do 3 eexists; (split; [reflexivity|]); cbn [events];
    rewrite <- ?app_assoc; cbn [app];
    first
      [ split; [symmetry; apply app_nil_r|]; by left
      | split; [reflexivity|]; right; left; split; [reflexivity|done]
      | split; [reflexivity|]; right; right; do 2 eexists; left;
        split; [reflexivity|done]
      | split; [reflexivity|]; right; right; do 2 eexists; right;
        eexists; split; reflexivity ].
Qed.

(** C9. On every path through [run_deep_agent] the sandbox is scoped to
    the stage. The events the stage adds to the trace are none at all (the
    stage failed before asking for the sandbox, or the sandbox could not be
    acquired), or the acquisition directly followed by the release (the
    fallback middleware could not be built), or the acquisition, the
    creation of the agent and the release (the body failed before the agent
    was invoked), or the acquisition, the creation, the invocation of the
    agent and the release, in this order - the last being the only shape of
    a stage that returns. Whether the body returned, raised or was
    cancelled, the release follows, and the agent is created and invoked
    only between acquisition and release. *)
Theorem run_deep_agent_sandbox_scoped (state : Deep.State)
    (ctx : Deep.Context) (w : World) :
  ∃ o w' trace,
    run_deep_agent state ctx w = (o, w') ∧
    events w' = (events w ++ trace)%list ∧
    sandbox_scoped false trace = true ∧
    ((trace = [] ∧ is_returned o = false) ∨
     (trace = [EvSandboxEnter "daytona" "scripts/sandbox_setup.sh";
               EvSandboxExit] ∧ is_returned o = false) ∨
     ∃ spec,
       (trace = [EvSandboxEnter "daytona" "scripts/sandbox_setup.sh";
                 EvCreateDeepAgent spec;
                 EvSandboxExit] ∧ is_returned o = false) ∨
       (∃ input, Deep.messages state = Some input ∧
          trace = [EvSandboxEnter "daytona" "scripts/sandbox_setup.sh";
                   EvCreateDeepAgent spec;
                   EvAgentInvoke input;
                   EvSandboxExit])).
Proof.
  destruct (run_deep_agent_trace state ctx w)
    as (o & w' & trace & Hrun & Hevents & Hshape).
  exists o, w', trace. split; [done|]. split; [done|].
  destruct Hshape
    as [[-> Ho]|[[-> Ho]|(tools & backend & [[-> Ho]|(input & Hin & ->)])]].
  - split; [done|]. by left.
  - split; [done|]. right. by left.
  - split; [done|]. right. right. eexists. by left.
  - split; [done|]. right. right. eexists. right. by exists input.
Qed.

(** With collaborators that succeed, the stage returns the agent's
    messages and the completion flag set; it draws no uuid and enters no
    other stage. *)
Lemma run_deep_agent_returns (state : Deep.State) (ctx : Deep.Context)
    (w : World) (msgs : list Message) :
  collaborators_succeed env →
  Deep.messages state = Some msgs →
  Forall (λ m, is_remove m = false ∧ ∃ n, id m = Some (Uuid n)) msgs →
  ∃ reply w', reply ≠ [] ∧ new_messages reply ∧
    run_deep_agent state ctx w =
      (Returned {| Deep.messages := Some (msgs ++ reply)%list;
                   Deep.query := None;
                   Deep.research_complete := Some true |}, w') ∧
    next_uuid w' = next_uuid w ∧
    stages_of (events w') = stages_of (events w).
Proof.
  intros ([k1 Hk1] & [k2 Hk2] & [k3 Hk3] & Htools & Hmodel & Henter & Hexit
          & Hagent) Hmsgs Huuid.
  set (server := {| mcp_command := "npx";
                    mcp_args := ["@browserbasehq/mcp"];
                    mcp_env := <["BROWSERBASE_API_KEY" := k1]>
                               (<["BROWSERBASE_PROJECT_ID" := k2]>
                               (<["GEMINI_API_KEY" := k3]> ∅));
                    mcp_transport := "stdio" |}).
  specialize (Htools server).
  destruct (mcp_get_tools env server) as [tools| |] eqn:Etools; try done.
  specialize (Henter "daytona" "scripts/sandbox_setup.sh").
  destruct (sandbox_enter env "daytona" "scripts/sandbox_setup.sh")
    as [backend| |] eqn:Eenter; try done.
  destruct (Hagent (deep_agent_spec ctx (tools ++ Tools.static_tools)%list backend))
    as (agent & Eagent & Hanswers).
  destruct (Hanswers msgs Huuid) as (reply & Ereply & Hne & Hnew).
  exists reply. eexists. split; [done|]. split; [done|].
  unfold Deep.run_deep_agent, Tools.get_all_tools,
    Tools.get_browserbase_mcp_client, Tools.environ_get, init_chat_model,
    with_, Deep.create_sandbox_enter, Deep.create_sandbox_exit,
    Deep.ModelFallbackMiddleware_init, Deep.create_deep_agent, mbind, M_bind,
    mret, M_ret, lift_outcome, raise, emit.
  unfold Deep.deep_agent_spec in Eagent. cbv zeta.
  rewrite Hk1, Hk2, Hk3. fold server. rewrite Etools, !Hmodel, Eenter.
  rewrite Eagent, Hmsgs, Ereply, Hexit. cbn.
  split; [reflexivity|]. split; [reflexivity|].
  unfold stages_of. cbn [events]. rewrite !omap_app. cbn.
  by rewrite !app_nil_r.
Qed.

Local Abbreviation build_graph :=
  (Deep.build_graph workflow delegation researcher env).

Lemma successors_start config :
  successors (builder (build_graph config)) [START] = ["prepare_research"].
Proof. reflexivity. Qed.

Lemma successors_prepare config :
  successors (builder (build_graph config)) ["prepare_research"]
  = ["run_deep_agent"].
Proof. reflexivity. Qed.

Lemma successors_run config :
  successors (builder (build_graph config)) ["run_deep_agent"]
  = ["finalize_research"].
Proof. reflexivity. Qed.

Lemma successors_finalize config :
  successors (builder (build_graph config)) ["finalize_research"] = [].
Proof. reflexivity. Qed.

(** C1, amended. With collaborators that succeed - every call returns and
    the agent answers with the conversation it was given followed by at
    least one new message -, a run of the compiled research graph on the
    state [{query: "What is LangGraph?", messages: []}] returns; it goes
    through [prepare_research], [run_deep_agent] and [finalize_research],
    in this order and nothing else; the final state has [research_complete]
    true, keeps the query, and its messages are the human message made from
    the query followed by at least one more message. *)
Theorem research_run_end_to_end (config : RunnableConfig)
    (ctx : Deep.Context) (w : World) :
  collaborators_succeed env →
  ∃ final w' more,
    Deep.run workflow delegation researcher env config sample_input ctx w
      = (Returned final, w') ∧
    stages_of (events w') =
      (stages_of (events w) ++
         ["prepare_research"; "run_deep_agent"; "finalize_research"])%list ∧
    Deep.research_complete final = Some true ∧
    Deep.query final = Some "What is LangGraph?" ∧
    Deep.messages final =
      Some (with_id (HumanMessage "What is LangGraph?") (Uuid (next_uuid w))
            :: more) ∧
    more ≠ [].
Proof.
  intros Henv.
  set (q := "What is LangGraph?").
  set (h := with_id (HumanMessage q) (Uuid (next_uuid w))).
  (* the worlds and the state the first stage leaves *)
  set (wa := {| next_uuid := next_uuid w;
                events := (events w ++ [EvNode "prepare_research"])%list |}).
  set (w1 := {| next_uuid := S (next_uuid w);
                events := (events w ++ [EvNode "prepare_research"])%list |}).
  set (s1 := {| Deep.messages := Some [h]; Deep.query := Some q;
                Deep.research_complete := Some false |}).
  set (wb := {| next_uuid := next_uuid w1;
                events := (events w1 ++ [EvNode "run_deep_agent"])%list |}).
  destruct (run_deep_agent_returns s1 ctx wb [h])
    as (reply & w2 & Hne & [Hreply Hnd] & Hrun & Huuid & Hstages); [done..| |].
  { apply Forall_singleton. split; [done|by exists (next_uuid w)]. }
  set (s2 := {| Deep.messages := Some (h :: reply); Deep.query := Some q;
                Deep.research_complete := Some true |}).
  exists s2,
         {| next_uuid := next_uuid w2;
            events := (events w2 ++ [EvNode "finalize_research"])%list |},
         reply.
  split; [|split_and!; try done].
  - unfold Deep.run, ainvoke, DEFAULT_RECURSION_LIMIT.
    erewrite (bind_returned _ _ w
                {| Deep.messages := Some []; Deep.query := Some q;
                   Deep.research_complete := None |} w) by reflexivity.
    rewrite successors_start.
    (* prepare_research *)
    erewrite (run_steps_single _ _ _ _ "prepare_research" _ _ s1
                {| Deep.messages := Some [HumanMessage q]; Deep.query := None;
                   Deep.research_complete := Some false |} w wa w1);
      [|reflexivity|reflexivity|].
    2:{ unfold Deep.apply_update. cbn [Deep.messages Deep.query
          Deep.research_complete].
        erewrite bind_returned.
        2:{ erewrite bind_returned; [reflexivity|].
            apply (add_messages_new [] [HumanMessage q] wa [] wa [h] w1);
              [done|done|by repeat constructor|..].
            - apply NoDup_singleton.
            - intros m _. apply not_elem_of_nil. }
        reflexivity. }
    rewrite successors_prepare.
    (* run_deep_agent *)
    erewrite (run_steps_single _ _ _ _ "run_deep_agent" _ _ s2 _ w1 w2 w2);
      [|reflexivity|exact Hrun|].
    2:{ unfold Deep.apply_update. cbn [Deep.messages Deep.query
          Deep.research_complete s1].
        erewrite bind_returned.
        2:{ erewrite bind_returned; [reflexivity|].
            apply (add_messages_extend [h] reply w2).
            - apply Forall_singleton. by eexists.
            - by apply Forall_singleton.
            - apply NoDup_singleton.
            - eapply Forall_impl; [exact Hreply|].
              intros m [_ [s Hs]]. by exists (Given s).
            - eapply Forall_impl; [exact Hreply|]. by intros m [? _].
            - exact Hnd.
            - intros m Hm.
              eapply Forall_forall in Hreply as [_ [s Hs]]; [|exact Hm].
              rewrite Hs. cbn. rewrite list_elem_of_singleton. congruence. }
        reflexivity. }
    rewrite successors_run.
    (* finalize_research *)
    erewrite (run_steps_single _ _ _ _ "finalize_research");
      [|reflexivity|reflexivity|reflexivity].
    rewrite successors_finalize. reflexivity.
  - cbn [events]. unfold stages_of in *.
    rewrite omap_app, Hstages. cbn [events wb w1].
    rewrite !omap_app. cbn. by rewrite <- !app_assoc.
Qed.
End DeepFacts.

Lemma sample_agent_answers : answers sample_agent.
Proof.
  intros msgs _. exists [sample_reply].
  split; [done|]. split; [done|]. split.
  - apply Forall_singleton. split; [done|by exists "run-1"].
  - apply NoDup_singleton.
Qed.

Lemma sample_env_succeeds : collaborators_succeed sample_env.
Proof.
  split_and!; try done.
  intros spec. exists sample_agent. split; [done|apply sample_agent_answers].
Qed.

(** C1, on an instance: the sample collaborators succeed, and the run from
    the empty world ends as stated. *)
Lemma research_run_end_to_end_witness :
  collaborators_succeed sample_env ∧
  ∃ final w' more,
    Deep.run sample_workflow sample_delegation sample_researcher sample_env
      sample_config sample_input Deep.default_Context sample_world
      = (Returned final, w') ∧
    stages_of (events w') =
      (stages_of (events sample_world) ++
         ["prepare_research"; "run_deep_agent"; "finalize_research"])%list ∧
    Deep.research_complete final = Some true ∧
    Deep.query final = Some "What is LangGraph?" ∧
    Deep.messages final =
      Some (with_id (HumanMessage "What is LangGraph?")
              (Uuid (next_uuid sample_world)) :: more) ∧
    more ≠ [].
Proof.
  split; [exact sample_env_succeeds|].
  exact (research_run_end_to_end sample_workflow sample_delegation
           sample_researcher sample_env sample_config Deep.default_Context
           sample_world sample_env_succeeds).
Defined.

(** C1, as worded, fails: with an agent whose answer holds no messages
    every stage completes and the flag is set, yet the final state holds
    the human query message and nothing beyond it. *)
Lemma end_to_end_without_reply : ¬ end_to_end_as_worded.
Proof.
  intros Hclaim.
  set (final := {| Deep.messages :=
                     Some [with_id (HumanMessage "What is LangGraph?") (Uuid 0)];
                   Deep.query := Some "What is LangGraph?";
                   Deep.research_complete := Some true |}).
  set (w' := (Deep.run sample_workflow sample_delegation sample_researcher
                sample_env_silent sample_config sample_input
                Deep.default_Context sample_world).2).
  assert (Deep.run sample_workflow sample_delegation sample_researcher
            sample_env_silent sample_config sample_input Deep.default_Context
            sample_world = (Returned final, w')) as Hrun
    by (vm_compute; reflexivity).
  destruct (Hclaim _ _ _ _ _ _ _ _ _ Hrun)
    as (_ & _ & human & more & Hmessages & _ & Hmore).
  cbn in Hmessages. by injection Hmessages as _ <-.
Qed.

(** ** The completion flag *)

(** C4, as worded, fails: [run_deep_agent], the stage before
    [finalize_research], returns a result whose [research_complete] is
    true. *)
Lemma run_deep_agent_sets_completion : ¬ completion_set_only_by_finalize.
Proof.
  intros Hclaim.
  set (state := {| Deep.messages := Some []; Deep.query := None;
                   Deep.research_complete := Some false |}).
  destruct (run_deep_agent_returns sample_workflow sample_delegation
              sample_researcher sample_env state Deep.default_Context
              sample_world [] sample_env_succeeds eq_refl ltac:(constructor))
    as (reply & w' & _ & _ & Hrun & _).
  refine (Hclaim sample_workflow sample_delegation sample_researcher sample_env
            sample_config "run_deep_agent" _ state Deep.default_Context
            sample_world _ _ _ _ Hrun eq_refl).
  - cbn. apply list_elem_of_further, list_elem_of_here.
  - done.
Qed.

(** C4, amended. The channel of [research_complete] starts empty;
    [prepare_research] always writes false to it, [run_deep_agent] writes
    true whenever it returns, and [finalize_research] always writes true. *)
Theorem research_complete_writers workflow delegation researcher env
    (state : Deep.State) (ctx : Deep.Context) (w : World) :
  Deep.research_complete Deep.initial_state = None ∧
  (∃ u, Deep.prepare_research state ctx w = (Returned u, w) ∧
        Deep.research_complete u = Some false) ∧
  (∀ u w', Deep.run_deep_agent workflow delegation researcher env state ctx w
             = (Returned u, w') →
           Deep.research_complete u = Some true) ∧
  (∃ u, Deep.finalize_research state ctx w = (Returned u, w) ∧
        Deep.research_complete u = Some true).
Proof.
  split_and!; [done|by eexists| |by eexists].
  intros u w'.
  unfold Deep.run_deep_agent, mbind, M_bind, mret, M_ret.
  repeat match goal with
  | |- context [match ?p with (_, _) => _ end] => destruct p as [[?| |] ?]
  end; intros [= <- <-] || intros [=]. done.
Qed.

(** C4, amended, on an instance: the sample run of [run_deep_agent]
    returns, and its result sets the flag. *)
Lemma research_complete_writers_witness :
  ∃ u w',
    Deep.run_deep_agent sample_workflow sample_delegation sample_researcher
      sample_env sample_input Deep.default_Context sample_world
      = (Returned u, w') ∧
    Deep.research_complete u = Some true.
Proof.
  destruct (run_deep_agent_returns sample_workflow sample_delegation
              sample_researcher sample_env sample_input Deep.default_Context
              sample_world [] sample_env_succeeds eq_refl ltac:(constructor))
    as (reply & w' & _ & _ & Hrun & _).
  eexists _, _. split; [exact Hrun|].
  destruct (research_complete_writers sample_workflow sample_delegation
              sample_researcher sample_env sample_input Deep.default_Context
              sample_world) as (_ & _ & Hset & _).
  exact (Hset _ _ Hrun).
Defined.

(** ** The ceilings of the delegation policy *)

(** C2, as worded, fails: the ceiling on model calls (and the one on tool
    calls) is the same for every context. *)
Lemma call_ceilings_fixed : ¬ call_ceilings_configurable.
Proof.
  intros Hclaim.
  destruct (Hclaim sample_workflow sample_delegation sample_researcher
              sample_env [] {| sandbox_id := "sandbox-1" |})
    as [(ctx1 & ctx2 & Hdiffer) _].
  by apply Hdiffer.
Qed.

(** C2, amended. For every context, the agent [run_deep_agent] asks for
    caps model calls at 10 and tool calls at 10, whatever the context holds;
    the context's [max_concurrent_research_units] and
    [max_researcher_iterations] are handed to [_build_instructions], whose
    text becomes the system prompt, and its [model_name] and [temperature]
    make the model. This is so for the agent created in any call of the
    stage. *)
Theorem agent_ceilings workflow delegation researcher env
    (state : Deep.State) (ctx : Deep.Context) (w : World) :
  (∀ tools sandbox,
     let spec :=
       Deep.deep_agent_spec workflow delegation researcher env ctx tools sandbox in
     model_call_limits (spec_middleware spec) = [10%Z] ∧
     tool_call_limits (spec_middleware spec) = [10%Z] ∧
     spec_middleware spec =
       [ ModelCallLimitMiddleware 10; ToolCallLimitMiddleware 10;
         ModelFallbackMiddleware "gpt-4o-mini"; ModelRetryMiddleware;
         ToolRetryMiddleware ] ∧
     spec_system_prompt spec =
       Deep._build_instructions workflow delegation
         (Deep.max_concurrent_research_units ctx)
         (Deep.max_researcher_iterations ctx) ∧
     spec_model spec = {| model_id := Deep.model_name ctx;
                          model_temperature := Deep.temperature ctx |}) ∧
  ∃ o w' trace,
    Deep.run_deep_agent workflow delegation researcher env state ctx w = (o, w') ∧
    events w' = (events w ++ trace)%list ∧
    ∀ spec, EvCreateDeepAgent spec ∈ trace →
      model_call_limits (spec_middleware spec) = [10%Z] ∧
      tool_call_limits (spec_middleware spec) = [10%Z] ∧
      spec_system_prompt spec =
        Deep._build_instructions workflow delegation
          (Deep.max_concurrent_research_units ctx)
          (Deep.max_researcher_iterations ctx).
Proof.
  split; [done|].
  destruct (run_deep_agent_trace workflow delegation researcher env state ctx w)
    as (o & w' & trace & Hrun & Hevents & Hshape).
  exists o, w', trace. split; [done|]. split; [done|].
  intros spec Hspec.
  destruct Hshape
    as [[-> _]|[[-> _]|(tools & backend & [[-> _]|(input & _ & ->)])]].
  - by apply elem_of_nil in Hspec.
  - repeat (apply elem_of_cons in Hspec as [Hspec|Hspec]; simplify_eq);
      by apply elem_of_nil in Hspec.
  - repeat (apply elem_of_cons in Hspec as [Hspec|Hspec]; simplify_eq);
      [done|by apply elem_of_nil in Hspec].
  - repeat (apply elem_of_cons in Hspec as [Hspec|Hspec]; simplify_eq);
      [done|by apply elem_of_nil in Hspec].
Qed.

(** C2, amended, on an instance: the sample run creates its agent with both
    ceilings at 10, under a context that asks for 5 and 7. *)
Lemma agent_ceilings_witness :
  let ctx := {| Deep.model_name := Deep.DEFAULT_MODEL_NAME;
                Deep.temperature := Deep.DEFAULT_TEMPERATURE;
                Deep.max_concurrent_research_units := 5;
                Deep.max_researcher_iterations := 7 |} in
  ∃ spec w',
    EvCreateDeepAgent spec ∈ events w' ∧
    (Deep.run_deep_agent sample_workflow sample_delegation sample_researcher
       sample_env sample_input ctx sample_world).2 = w' ∧
    model_call_limits (spec_middleware spec) = [10%Z] ∧
    tool_call_limits (spec_middleware spec) = [10%Z].
Proof.
  intros ctx.
  destruct (agent_ceilings sample_workflow sample_delegation sample_researcher
              sample_env sample_input ctx sample_world)
    as (_ & o & w' & trace & Hrun & Hevents & Hlimits).
  set (spec := Deep.deep_agent_spec sample_workflow sample_delegation
                 sample_researcher sample_env ctx
                 ["browserbase_stagehand_navigate"; "think_tool"; "internet_search"]
                 {| sandbox_id := "sandbox-1" |}).
  assert (EvCreateDeepAgent spec ∈ trace) as Hin.
  { vm_compute in Hrun. injection Hrun as <- <-.
    cbn in Hevents. subst trace.
    apply list_elem_of_further, list_elem_of_here. }
  exists spec, w'. split; [rewrite Hevents; apply elem_of_app; by right|].
  split; [by rewrite Hrun|].
  destruct (Hlimits spec Hin) as (Hm & Ht & _). by split.
Defined.

(** The two ceilings of the context reach the instructions as decimal
    text, at the places the template names them. *)
Example build_instructions_sample :
  Deep._build_instructions "W" sample_delegation 5 7
  = "W" +:+ newline +:+ newline +:+ str_mul "=" 80 +:+ newline +:+ newline
    +:+ "Use at most 5 parallel sub-agents and stop after 7 delegation rounds.".
Proof. reflexivity. Qed.

(** C3, as worded, fails: whatever runs a delegate from the sub-agent, the
    middleware and the task, its iteration count cannot be the context's
    [max_researcher_iterations] for every context, since none of the three
    changes with it. *)
Lemma iteration_ceiling_not_enforced :
  ¬ ∃ delegate_iterations, iteration_ceiling_enforced delegate_iterations.
Proof.
  intros [iterations Hclaim].
  set (delegate := Deep._create_research_subagent sample_researcher
                     (Deep._get_current_date sample_env) []).
  pose proof (Hclaim sample_workflow sample_delegation sample_researcher
                sample_env (with_max_researcher_iterations 3 Deep.default_Context)
                [] {| sandbox_id := "sandbox-1" |} "survey the field" delegate
                (list_elem_of_here _ _) ltac:(done)) as H3.
  pose proof (Hclaim sample_workflow sample_delegation sample_researcher
                sample_env (with_max_researcher_iterations 4 Deep.default_Context)
                [] {| sandbox_id := "sandbox-1" |} "survey the field" delegate
                (list_elem_of_here _ _) ltac:(done)) as H4.
  cbn in H3, H4. lia.
Qed.

(** C3, amended. [max_researcher_iterations] is read from the context and
    written into the instruction text by [_build_instructions]; it reaches
    nothing else of the agent [run_deep_agent] builds: giving the context
    another value [m] changes the system prompt and leaves the model, the
    tools, the middleware, the research sub-agent and the backend as they
    were. *)
Theorem iterations_only_in_instructions workflow delegation researcher env
    (ctx : Deep.Context) (m : Z) (tools : list Tool)
    (sandbox : SandboxBackend) :
  Deep.deep_agent_spec workflow delegation researcher env
    (with_max_researcher_iterations m ctx) tools sandbox
  = with_system_prompt
      (Deep._build_instructions workflow delegation
         (Deep.max_concurrent_research_units ctx) m)
      (Deep.deep_agent_spec workflow delegation researcher env ctx tools sandbox)
  ∧ spec_subagents
      (Deep.deep_agent_spec workflow delegation researcher env ctx tools sandbox)
    = [Deep._create_research_subagent researcher (Deep._get_current_date env) tools].
Proof. done. Qed.

(** ** Model fallback *)

(** C8, as worded, fails: for the context of the "Precise Assistant" the
    primary model is [gpt-4o-mini], the fallback model itself; when that
    model alone is unusable, the call fails. *)
Lemma fallback_does_not_rescue : ¬ fallback_rescues.
Proof.
  intros Hclaim.
  specialize (Hclaim sample_workflow sample_delegation sample_researcher
                sample_env Main.precise_context [] {| sandbox_id := "sandbox-1" |}
                (handler_without "gpt-4o-mini") []).
  assert (is_returned (agent_model_call (handler_without "gpt-4o-mini")
            (Deep.deep_agent_spec sample_workflow sample_delegation
               sample_researcher sample_env Main.precise_context []
               {| sandbox_id := "sandbox-1" |}) []) = false) as Hfails
    by reflexivity.
  rewrite Hclaim in Hfails; [done|].
  intros model req. unfold handler_without. cbn.
  by destruct (decide (model = "gpt-4o-mini")).
Qed.

(** C8, amended. For every context the agent carries the single fallback
    model [gpt-4o-mini]. A model call whose primary invocation returns is
    that invocation; a model call whose primary invocation raises is the
    invocation of [gpt-4o-mini] on the same request, whether that returns
    or fails in turn. *)
Theorem fallback_substitutes_secondary workflow delegation researcher env
    (ctx : Deep.Context) (tools : list Tool) (sandbox : SandboxBackend)
    (handler : string → list Message → outcome Message)
    (request : list Message) :
  let spec :=
    Deep.deep_agent_spec workflow delegation researcher env ctx tools sandbox in
  fallback_models (spec_middleware spec) = ["gpt-4o-mini"] ∧
  (∀ r, handler (Deep.model_name ctx) request = Returned r →
        agent_model_call handler spec request = Returned r) ∧
  (∀ e, handler (Deep.model_name ctx) request = Raised e →
        agent_model_call handler spec request = handler "gpt-4o-mini" request).
Proof.
  split_and!; [done|..].
  - intros r Hr. unfold agent_model_call, wrap_model_call. cbn. by rewrite Hr.
  - intros e He. unfold agent_model_call, wrap_model_call. cbn. rewrite He.
    by destruct (handler "gpt-4o-mini" request).
Qed.

(** C8, amended, on an instance: the default model is unusable, the call is
    answered by [gpt-4o-mini]. *)
Lemma fallback_substitutes_secondary_witness :
  handler_without Deep.DEFAULT_MODEL_NAME Deep.DEFAULT_MODEL_NAME []
    = Raised (CollaboratorError "model unavailable") ∧
  agent_model_call (handler_without Deep.DEFAULT_MODEL_NAME)
    (Deep.deep_agent_spec sample_workflow sample_delegation sample_researcher
       sample_env Deep.default_Context [] {| sandbox_id := "sandbox-1" |}) []
  = Returned (AIMessage "answer of gpt-4o-mini" None).
Proof.
  split; [reflexivity|].
  destruct (fallback_substitutes_secondary sample_workflow sample_delegation
              sample_researcher sample_env Deep.default_Context []
              {| sandbox_id := "sandbox-1" |}
              (handler_without Deep.DEFAULT_MODEL_NAME) []) as (_ & _ & Hsub).
  rewrite (Hsub (CollaboratorError "model unavailable") eq_refl).
  reflexivity.
Defined.

(** ** Merging messages *)

(** C5, as worded, fails for the research graph: a result whose message
    carries the id of a stored message replaces that message instead of
    being appended after it. *)
Lemma deep_merge_replaces : ¬ deep_merge_appends.
Proof.
  intros Hclaim.
  set (stored := with_id (HumanMessage "first draft") (Given "1")).
  set (update := with_id (HumanMessage "second draft") (Given "1")).
  destruct (Hclaim
              {| Deep.messages := Some [stored]; Deep.query := None;
                 Deep.research_complete := None |}
              {| Deep.messages := Some [update]; Deep.query := None;
                 Deep.research_complete := None |}
              sample_world [stored] [update] eq_refl eq_refl)
    as (s' & w' & merged & Happly & Hmessages & Hcontent).
  vm_compute in Happly. injection Happly as <- <-.
  cbn in Hmessages. injection Hmessages as <-. discriminate Hcontent.
Qed.

Example deep_merge_replaces_value :
  add_messages [with_id (HumanMessage "first draft") (Given "1")]
               [with_id (HumanMessage "second draft") (Given "1")] sample_world
  = (Returned [with_id (HumanMessage "second draft") (Given "1")], sample_world).
Proof. vm_compute. reflexivity. Qed.

(** C5, amended. In the simple graph the merge appends: the new messages
    follow the stored ones, in order, nothing dropped. In the research graph
    the merge first gives an id to every message that has none; when the new
    messages then are no removals and carry ids that are pairwise distinct
    and not among the stored ids, the merge yields the stored messages
    followed by the new ones, in order; a new message that is no removal and
    carries the id of a stored message (ids being distinct among the stored
    ones) takes the place of that message instead. *)
Theorem messages_merge :
  (∀ (t : Simple.State) (added : list Message) (v : World),
     Simple.apply_update t {| Simple.u_messages := Some added |} v
     = (Returned {| Simple.messages := (Simple.messages t ++ added)%list |}, v))
  ∧ (∀ (s : Deep.State) (u : Deep.Update) (w w1 w2 : World)
       (current new current' new' : list Message),
     Deep.messages s = Some current →
     Deep.messages u = Some new →
     assign_ids current w = (Returned current', w1) →
     assign_ids new w1 = (Returned new', w2) →
     Forall (λ m, is_remove m = false) new' →
     NoDup (id <$> new') →
     (∀ m, m ∈ new' → id m ∉ id <$> current') →
     ∃ s', Deep.apply_update s u w = (Returned s', w2) ∧
           Deep.messages s' = Some (current' ++ new')%list)
  ∧ (∀ (s : Deep.State) (u : Deep.Update) (w : World)
       (current : list Message) (i : nat) (old m : Message),
     Deep.messages s = Some current →
     Deep.messages u = Some [m] →
     Forall has_id current → NoDup (id <$> current) →
     current !! i = Some old → id m = id old → is_remove m = false →
     ∃ s', Deep.apply_update s u w = (Returned s', w) ∧
           Deep.messages s' = Some (<[i := m]> current)).
Proof.
  split_and!; [done|..].
  - intros s u w w1 w2 current new current' new' Hs Hu Hcur Hnew Hrm Hnd Hfresh.
    unfold Deep.apply_update. rewrite Hs, Hu.
    erewrite bind_returned.
    2:{ erewrite bind_returned; [reflexivity|]. by eapply add_messages_new. }
    by eexists.
  - intros s u w current i old m Hs Hu Hids Hnd Hold Hid Hrm.
    unfold Deep.apply_update. rewrite Hs, Hu.
    erewrite bind_returned.
    2:{ erewrite bind_returned; [reflexivity|]. by eapply add_messages_replace. }
    by eexists.
Qed.

(** C5, amended, on an instance: a stored human message with an id, and a
    result holding an answer without one. *)
Lemma messages_merge_witness :
  let stored := with_id (HumanMessage "What is LangGraph?") (Uuid 0) in
  let answer := AIMessage "A library." None in
  let w := {| next_uuid := 1; events := [] |} in
  ∃ s', Deep.apply_update
          {| Deep.messages := Some [stored]; Deep.query := None;
             Deep.research_complete := Some false |}
          {| Deep.messages := Some [answer]; Deep.query := None;
             Deep.research_complete := Some true |} w
        = (Returned s', {| next_uuid := 2; events := [] |}) ∧
        Deep.messages s' = Some [stored; with_id answer (Uuid 1)].
Proof.
  intros stored answer w.
  refine (proj1 (proj2 messages_merge)
            {| Deep.messages := Some [stored]; Deep.query := None;
               Deep.research_complete := Some false |}
            {| Deep.messages := Some [answer]; Deep.query := None;
               Deep.research_complete := Some true |}
            w w {| next_uuid := 2; events := [] |}
            [stored] [answer] [stored] [with_id answer (Uuid 1)]
            eq_refl eq_refl eq_refl eq_refl _ _ _).
  - by apply Forall_singleton.
  - apply NoDup_singleton.
  - intros m Hm. apply list_elem_of_singleton in Hm as ->. cbn.
    rewrite list_elem_of_singleton. congruence.
Defined.

(** ** Looking an assistant up before creating it *)

Section ClientFacts.
Context {S : Type} `{Main.LangGraphClient S}.

(** [get_or_create_assistant] first searches for the name. When the
    search lists assistants, the first of them is returned and nothing is
    created: the search is the only call issued. When the search lists
    none, the assistant is created and the creation's outcome is the
    outcome of the call. *)
Lemma get_or_create_assistant_lookup_first (name graph_id : string)
    (config : option RunnableConfig) (context : option Deep.Context)
    (w : Main.ClientWorld S) :
  (∀ first rest s',
     Main.assistants_search {[ "name" := name ]} (Main.service w)
       = (Returned (first :: rest), s') →
     Main.get_or_create_assistant name graph_id config context w =
       (Returned first,
        {| Main.service := s';
           Main.calls := (Main.calls w ++ [Main.CallSearch {[ "name" := name ]}])%list;
           Main.log := (Main.log w ++ ["Found existing assistant: " +:+ name])%list |}))
  ∧ (∀ s' o s'',
     Main.assistants_search {[ "name" := name ]} (Main.service w)
       = (Returned [], s') →
     Main.assistants_create graph_id config context name s' = (o, s'') →
     Main.get_or_create_assistant name graph_id config context w =
       (o,
        {| Main.service := s'';
           Main.calls := (Main.calls w ++
              [Main.CallSearch {[ "name" := name ]};
               Main.CallCreate graph_id name])%list;
           Main.log := (Main.log w ++ ["Creating new assistant: " +:+ name])%list |})).
Proof.
  split.
  - intros first rest s' Hsearch.
    unfold Main.get_or_create_assistant, Main.api_call, Main.logger_info,
      mbind, M_bind, mret, M_ret.
    by rewrite Hsearch.
  - intros s' o s'' Hsearch Hcreate.
    unfold Main.get_or_create_assistant, Main.api_call, Main.logger_info,
      mbind, M_bind, mret, M_ret.
    rewrite Hsearch. cbn. rewrite Hcreate. by rewrite <- app_assoc.
Qed.
End ClientFacts.

Lemma memory_search_none (name : string) (store : list Main.Assistant) :
  Forall (λ a, Main.metadata a !! "name" ≠ Some name) store →
  filter (λ a, Main.matches {[ "name" := name ]} a = true) store = [].
Proof.
  induction 1 as [|a store Ha _ IH]; [done|].
  rewrite filter_cons_False; [exact IH|].
  unfold Main.matches. rewrite bool_decide_eq_true, map_Forall_singleton.
  exact Ha.
Qed.

(** On the service kept in memory, a call from a store that lists no
    assistant under the metadata entry [name] creates one. *)
Lemma memory_get_or_create_creates (name graph_id : string)
    (config : option RunnableConfig) (context : option Deep.Context)
    (w : Main.ClientWorld (list Main.Assistant)) :
  Forall (λ a, Main.metadata a !! "name" ≠ Some name) (Main.service w) →
  let a := {| Main.assistant_id :=
                "assistant-" +:+ pretty (length (Main.service w));
              Main.graph_id := graph_id; Main.name := name;
              Main.metadata := ∅; Main.config := config;
              Main.context := context |} in
  @Main.get_or_create_assistant _ Main.memory_client name graph_id config
    context w =
    (Returned a,
     {| Main.service := (Main.service w ++ [a])%list;
        Main.calls := (Main.calls w ++
           [Main.CallSearch {[ "name" := name ]};
            Main.CallCreate graph_id name])%list;
        Main.log := (Main.log w ++ ["Creating new assistant: " +:+ name])%list |}).
Proof.
  intros Hstore a.
  eapply (proj2 (get_or_create_assistant_lookup_first name graph_id config
                   context w)).
  - cbn. unfold Main.memory_search. by rewrite (memory_search_none _ _ Hstore).
  - reflexivity.
Qed.

(** C7. On a service that stores a new assistant with what the [create]
    call carried - a name and, in this call, no metadata - and that answers
    a search by metadata, [get_or_create_assistant] is not idempotent: from
    any store that lists no assistant under the metadata entry
    [name], a first call searches, finds nothing and creates an assistant,
    and a second call with the same arguments searches, finds nothing again
    and creates a second assistant with another id. *)
Theorem get_or_create_assistant_creates_again (name graph_id : string)
    (config : option RunnableConfig) (context : option Deep.Context)
    (store : list Main.Assistant) :
  Forall (λ a, Main.metadata a !! "name" ≠ Some name) store →
  ∃ a b w1 w2,
    @Main.get_or_create_assistant _ Main.memory_client name graph_id config
      context {| Main.service := store; Main.calls := []; Main.log := [] |}
      = (Returned a, w1) ∧
    @Main.get_or_create_assistant _ Main.memory_client name graph_id config
      context w1 = (Returned b, w2) ∧
    Main.service w2 = (store ++ [a; b])%list ∧
    Main.calls w2 =
      [Main.CallSearch {[ "name" := name ]}; Main.CallCreate graph_id name;
       Main.CallSearch {[ "name" := name ]}; Main.CallCreate graph_id name] ∧
    Main.name a = name ∧ Main.name b = name ∧
    Main.assistant_id a ≠ Main.assistant_id b.
Proof.
  intros Hstore.
  pose proof (memory_get_or_create_creates name graph_id config context
                {| Main.service := store; Main.calls := []; Main.log := [] |}
                Hstore) as H1.
  cbv zeta in H1. cbn [Main.service Main.calls Main.log] in H1.
  eexists _, _, _, _. split; [exact H1|].
  match type of H1 with _ = (Returned _, ?w1) =>
    assert (Forall (λ x, Main.metadata x !! "name" ≠ Some name)
              (Main.service w1)) as Hstore'
      by (cbn; apply Forall_app; split; [done|]; by apply Forall_singleton);
    pose proof (memory_get_or_create_creates name graph_id config context
                  w1 Hstore') as H2
  end.
  cbv zeta in H2. cbn [Main.service Main.calls Main.log] in H2.
  split; [exact H2|].
  cbn [Main.service Main.calls Main.log Main.name Main.assistant_id].
  split_and!; try reflexivity.
  - by rewrite <- app_assoc.
  - rewrite length_app. cbn. intros [= Heq].
    change (pretty (length store) = pretty (length store + 1)) in Heq.
    apply (inj pretty) in Heq. lia.
Qed.

(** C7, on an instance: the empty store and the first assistant [main]
    asks for. *)
Lemma get_or_create_assistant_creates_again_witness :
  ∃ a b w1 w2,
    @Main.get_or_create_assistant _ Main.memory_client
      "Creative Assistant" "deep" None (Some Main.creative_context)
      empty_client_world = (Returned a, w1) ∧
    @Main.get_or_create_assistant _ Main.memory_client
      "Creative Assistant" "deep" None (Some Main.creative_context)
      w1 = (Returned b, w2) ∧
    Main.service w2 = [a; b] ∧ Main.assistant_id a ≠ Main.assistant_id b.
Proof.
  destruct (get_or_create_assistant_creates_again "Creative Assistant" "deep"
              None (Some Main.creative_context) [] ltac:(constructor))
    as (a & b & w1 & w2 & H1 & H2 & Hservice & _ & _ & _ & Hids).
  by exists a, b, w1, w2.
Defined.

(** * Further properties *)

(** ** More on the reducer *)

Lemma add_messages_nil_r left w :
  Forall has_id left → add_messages left [] w = (Returned left, w).
Proof.
  intros Hids.
  rewrite (add_messages_new left [] w left w [] w);
    [by rewrite app_nil_r|by apply assign_ids_has_id|done|done|constructor|].
  intros m Hm. by apply elem_of_nil in Hm.
Qed.

Lemma add_messages_same left w :
  Forall has_id left → Forall (λ m, is_remove m = false) left →
  NoDup (id <$> left) →
  add_messages left left w = (Returned left, w).
Proof.
  intros Hids Hrm Hnd.
  pose proof (add_messages_extend left [] w Hids Hrm Hnd) as Hext.
  rewrite app_nil_r in Hext. apply Hext; [done|done|constructor|].
  intros m Hm. by apply elem_of_nil in Hm.
Qed.

Lemma assign_ids_spec ms w :
  ∃ ms' w', assign_ids ms w = (Returned ms', w') ∧
    Forall has_id ms' ∧ events w' = events w ∧ (next_uuid w ≤ next_uuid w')%nat.
Proof.
  revert w. induction ms as [|m ms IH]; intros w.
  - by exists [], w.
  - cbn [assign_ids]. unfold assign_id.
    destruct (id m) as [i|] eqn:Hi.
    + destruct (IH w) as (ms' & w' & Hms & Hids & Hev & Hle).
      exists (m :: ms'), w'. rewrite bind_ret.
      erewrite bind_returned by exact Hms.
      split; [done|]. split; [|done].
      constructor; [by exists i|done].
    + set (w1 := {| next_uuid := S (next_uuid w); events := events w |}).
      destruct (IH w1) as (ms' & w' & Hms & Hids & Hev & Hle).
      exists (with_id m (Uuid (next_uuid w)) :: ms'), w'.
      split.
      * unfold mbind, M_bind, uuid4, mret, M_ret. fold w1. by rewrite Hms.
      * split; [constructor; [by eexists|done]|]. split; [done|]. cbn in Hle. lia.
Qed.

Lemma merge_loop_has_id right st st' :
  Forall has_id (merged st) → Forall has_id right →
  merge_loop right st = Returned st' → Forall has_id (merged st').
Proof.
  revert st. induction right as [|m right IH]; intros st Hst Hright.
  - by intros [= <-].
  - apply Forall_cons in Hright as [Hm Hright]. cbn [merge_loop].
    destruct (merge_step st m) as [st1| |] eqn:Hstep; [|done..].
    apply IH; [|done]. unfold merge_step in Hstep.
    destruct (merged_by_id st !! id m), (is_remove m); simplify_eq/=;
      [done|by apply Forall_insert|apply Forall_app; by split; [|constructor]].
Qed.

(** Whatever [add_messages] returns carries an id throughout, and the
    trace is not touched. *)
Lemma add_messages_has_id left right w out w' :
  add_messages left right w = (Returned out, w') →
  Forall has_id out ∧ events w' = events w ∧ (next_uuid w ≤ next_uuid w')%nat.
Proof.
  unfold add_messages.
  destruct (assign_ids_spec left w) as (left' & w1 & Hl & Hidl & Hev1 & Hle1).
  destruct (assign_ids_spec right w1) as (right' & w2 & Hr & Hidr & Hev2 & Hle2).
  erewrite bind_returned by exact Hl. erewrite bind_returned by exact Hr.
  destruct (remove_all_idx right') as [idx|].
  - intros [= <- <-]. split; [by apply Forall_drop|]. split; [congruence|lia].
  - unfold lift_outcome, merge_messages.
    destruct (merge_loop right' _) as [st| |] eqn:Hloop; intros [= <- <-].
    split; [|split; [congruence|lia]].
    apply merge_loop_has_id in Hloop; [|done..].
    apply Forall_forall. intros m Hm. apply list_elem_of_filter in Hm as [_ Hm].
    by eapply Forall_forall in Hloop.
Qed.

Lemma apply_update_world s u w o w' :
  Deep.apply_update s u w = (o, w') →
  events w' = events w ∧ (next_uuid w ≤ next_uuid w')%nat.
Proof.
  unfold Deep.apply_update, mbind, M_bind, mret, M_ret.
  destruct (Deep.messages u) as [new|]; [|by intros [= <- <-]].
  destruct (Deep.messages s) as [current|]; [|by intros [= <- <-]].
  destruct (add_messages current new w) as [[out| |] w1] eqn:Hadd.
  - apply add_messages_has_id in Hadd as (_ & Hev & Hle). by intros [= <- <-].
  - intros [= <- <-]. revert Hadd. unfold add_messages.
    destruct (assign_ids_spec current w) as (l' & w2 & Hl & _ & Hev1 & Hle1).
    destruct (assign_ids_spec new w2) as (r' & w3 & Hr & _ & Hev2 & Hle2).
    erewrite bind_returned by exact Hl. erewrite bind_returned by exact Hr.
    destruct (remove_all_idx r'); [done|]. unfold lift_outcome.
    intros [= _ <-]. split; [congruence|lia].
  - intros [= <- <-]. revert Hadd. unfold add_messages.
    destruct (assign_ids_spec current w) as (l' & w2 & Hl & _ & Hev1 & Hle1).
    destruct (assign_ids_spec new w2) as (r' & w3 & Hr & _ & Hev2 & Hle2).
    erewrite bind_returned by exact Hl. erewrite bind_returned by exact Hr.
    destruct (remove_all_idx r'); [done|]. unfold lift_outcome.
    intros [= _ <-]. split; [congruence|lia].
Qed.

(** ** Merging results into the state *)

(** X9. Merging the result of [prepare_research] into a state that already
    holds a conversation changes nothing in it: when the state's messages
    carry distinct ids and none is a removal, and the state has messages or
    no query, the merged state holds the same messages - not twice -, the
    same query, and the completion flag cleared; no uuid is drawn. *)
Theorem prepare_research_keeps_conversation (state : Deep.State)
    (ctx : Deep.Context) (w : World) (current : list Message) :
  Deep.messages state = Some current →
  current ≠ [] ∨ default "" (Deep.query state) = "" →
  Forall has_id current →
  Forall (λ m, is_remove m = false) current →
  NoDup (id <$> current) →
  (Deep.prepare_research state ctx ≫= Deep.apply_update state) w =
    (Returned {| Deep.messages := Some current;
                 Deep.query := Deep.query state;
                 Deep.research_complete := Some false |}, w).
Proof.
  intros Hs Hcond Hids Hrm Hnd.
  assert (Deep.prepare_research state ctx w =
            (Returned {| Deep.messages := Some current; Deep.query := None;
                         Deep.research_complete := Some false |}, w)) as Hprep.
  { unfold Deep.prepare_research. rewrite Hs. cbn [default].
    destruct Hcond as [Hne|Hq].
    - rewrite (bool_decide_eq_false_2 (current = [])) by done.
      by rewrite andb_false_r.
    - rewrite Hq. by rewrite (bool_decide_eq_false_2 ("" ≠ "")) by (by intros []). }
  erewrite bind_returned by exact Hprep.
  unfold Deep.apply_update. rewrite Hs. cbn [Deep.messages Deep.query
    Deep.research_complete].
  erewrite bind_returned.
  2:{ erewrite bind_returned; [reflexivity|]. by apply add_messages_same. }
  done.
Qed.

(** X9, on an instance: a conversation of two messages. *)
Lemma prepare_research_keeps_conversation_witness :
  let state := {| Deep.messages := Some sample_conversation;
                  Deep.query := Some "What is LangGraph?";
                  Deep.research_complete := Some true |} in
  (Deep.prepare_research state Deep.default_Context ≫= Deep.apply_update state)
    sample_world
  = (Returned {| Deep.messages := Some sample_conversation;
                 Deep.query := Some "What is LangGraph?";
                 Deep.research_complete := Some false |}, sample_world).
Proof.
  intros state.
  apply (prepare_research_keeps_conversation state Deep.default_Context
           sample_world sample_conversation eq_refl).
  - by left.
  - repeat constructor; by eexists.
  - by repeat constructor.
  - cbn. apply NoDup_cons.
    split; [rewrite list_elem_of_singleton; congruence|apply NoDup_singleton].
Defined.

(** X11. Whenever a merge of a result that holds messages returns, every
    message of the merged state carries an id; the merge writes nothing to
    the trace and never takes a uuid back. *)
Theorem merged_messages_have_ids (s s' : Deep.State) (u : Deep.Update)
    (w w' : World) (current new : list Message) :
  Deep.messages s = Some current →
  Deep.messages u = Some new →
  Deep.apply_update s u w = (Returned s', w') →
  (∃ merged, Deep.messages s' = Some merged ∧ Forall has_id merged) ∧
  events w' = events w ∧ (next_uuid w ≤ next_uuid w')%nat.
Proof.
  intros Hs Hu Happly.
  split; [|by eapply apply_update_world].
  revert Happly. unfold Deep.apply_update, mbind, M_bind, mret, M_ret.
  rewrite Hs, Hu.
  destruct (add_messages current new w) as [[out| |] w1] eqn:Hadd; [|done..].
  intros [= <- <-]. exists out. split; [done|].
  by apply add_messages_has_id in Hadd as [? _].
Qed.

(** X11, on an instance: one stored message with an id, two new ones
    without. *)
Lemma merged_messages_have_ids_witness :
  ∃ s' w' merged,
    Deep.apply_update
      {| Deep.messages := Some [with_id (HumanMessage "hi") (Given "m1")];
         Deep.query := None; Deep.research_complete := None |}
      {| Deep.messages := Some [AIMessage "hello" None; HumanMessage "more"];
         Deep.query := None; Deep.research_complete := None |}
      sample_world = (Returned s', w') ∧
    Deep.messages s' = Some merged ∧ Forall has_id merged ∧ next_uuid w' = 2.
Proof.
  eexists _, _.
  set (s := {| Deep.messages := Some [with_id (HumanMessage "hi") (Given "m1")];
               Deep.query := None; Deep.research_complete := None |}).
  set (u := {| Deep.messages := Some [AIMessage "hello" None; HumanMessage "more"];
               Deep.query := None; Deep.research_complete := None |}).
  assert (Deep.apply_update s u sample_world
          = (Returned {| Deep.messages :=
                           Some [with_id (HumanMessage "hi") (Given "m1");
                                 with_id (AIMessage "hello" None) (Uuid 0);
                                 with_id (HumanMessage "more") (Uuid 1)];
                         Deep.query := None; Deep.research_complete := None |},
             {| next_uuid := 2; events := [] |})) as Happly
    by (vm_compute; reflexivity).
  destruct (merged_messages_have_ids s _ u sample_world _ _ _ eq_refl eq_refl
              Happly) as ((merged & Hm & Hids) & _).
  exists merged. split; [exact Happly|]. by split.
Defined.

(** X18. Results without messages compose by "the later one wins": merging
    two of them one after the other is merging the single result that
    holds, on every key, the later value written. In the simple graph two
    results merged one after the other are the single result holding the
    first messages followed by the second. *)
Theorem merges_compose :
  (∀ (s : Deep.State) (u1 u2 : Deep.Update) (w : World),
     Deep.messages u1 = None → Deep.messages u2 = None →
     (Deep.apply_update s u1 ≫= λ s1, Deep.apply_update s1 u2) w
     = Deep.apply_update s (later_wins u1 u2) w)
  ∧ (∀ (t : Simple.State) (a b : list Message) (w : World),
     (Simple.apply_update t {| Simple.u_messages := Some a |}
        ≫= λ t1, Simple.apply_update t1 {| Simple.u_messages := Some b |}) w
     = Simple.apply_update t {| Simple.u_messages := Some (a ++ b)%list |} w).
Proof.
  split.
  - intros s u1 u2 w H1 H2.
    unfold Deep.apply_update, later_wins, mbind, M_bind, mret, M_ret.
    rewrite H1, H2. cbn.
    by destruct (Deep.query u1), (Deep.query u2),
      (Deep.research_complete u1), (Deep.research_complete u2).
  - intros t a b w. unfold Simple.apply_update, Simple.add, mbind, M_bind,
      mret, M_ret. cbn. by rewrite app_assoc.
Qed.

(** X18, on an instance: the results of [prepare_research] (without its
    messages) and of [finalize_research]. *)
Lemma merges_compose_witness :
  let u1 := {| Deep.messages := None; Deep.query := Some "q";
               Deep.research_complete := Some false |} in
  let u2 := {| Deep.messages := None; Deep.query := None;
               Deep.research_complete := Some true |} in
  (Deep.apply_update Deep.initial_state u1
     ≫= λ s1, Deep.apply_update s1 u2) sample_world
  = (Returned {| Deep.messages := Some []; Deep.query := Some "q";
                 Deep.research_complete := Some true |}, sample_world).
Proof.
  intros u1 u2.
  rewrite (proj1 merges_compose Deep.initial_state u1 u2 sample_world
             eq_refl eq_refl).
  reflexivity.
Defined.

(** ** The tools *)

Lemma get_all_tools_world env w : (Tools.get_all_tools env w).2 = w.
Proof.
  unfold Tools.get_all_tools, Tools.get_browserbase_mcp_client,
    Tools.environ_get, mbind, M_bind, mret, M_ret, lift_outcome, raise.
  destruct (environ env !! "BROWSERBASE_API_KEY") as [k1|]; [|done].
  destruct (environ env !! "BROWSERBASE_PROJECT_ID") as [k2|]; [|done].
  destruct (environ env !! "GOOGLE_API_KEY") as [k3|]; [|done].
  by destruct (mcp_get_tools env _).
Qed.

Lemma get_all_tools_extends_tools env w tools :
  (Tools.get_all_tools env w).1 = Returned tools →
  ∃ mcp_tools, tools = (mcp_tools ++ ["think_tool"; "internet_search"])%list.
Proof.
  unfold Tools.get_all_tools, mbind, M_bind, mret, M_ret, lift_outcome.
  destruct (Tools.get_browserbase_mcp_client env w) as [[client| |] w1];
    [|done..].
  destruct (mcp_get_tools env client) as [mcp| |]; [|done..].
  intros [= <-]. by exists mcp.
Qed.

(** X1. [get_all_tools] reads the three environment variables in the order
    BROWSERBASE_API_KEY, BROWSERBASE_PROJECT_ID, GOOGLE_API_KEY and raises
    [KeyError] for the first one that is not set, without asking the tool
    server. With all three set it asks the server [npx @browserbasehq/mcp]
    over stdio, passing the value of GOOGLE_API_KEY under the name
    GEMINI_API_KEY; the server's tools come back followed by the two static
    tools, a failure of the server comes back as it is. The world is left
    untouched in every case. *)
Theorem get_all_tools_outcome (env : Env) (w : World) :
  match environ env !! "BROWSERBASE_API_KEY",
        environ env !! "BROWSERBASE_PROJECT_ID",
        environ env !! "GOOGLE_API_KEY" with
  | None, _, _ =>
      Tools.get_all_tools env w = (Raised (KeyError "BROWSERBASE_API_KEY"), w)
  | Some _, None, _ =>
      Tools.get_all_tools env w = (Raised (KeyError "BROWSERBASE_PROJECT_ID"), w)
  | Some _, Some _, None =>
      Tools.get_all_tools env w = (Raised (KeyError "GOOGLE_API_KEY"), w)
  | Some api_key, Some project_id, Some google_key =>
      ∃ server,
        mcp_command server = "npx" ∧
        mcp_args server = ["@browserbasehq/mcp"] ∧
        mcp_transport server = "stdio" ∧
        mcp_env server !! "BROWSERBASE_API_KEY" = Some api_key ∧
        mcp_env server !! "BROWSERBASE_PROJECT_ID" = Some project_id ∧
        mcp_env server !! "GEMINI_API_KEY" = Some google_key ∧
        mcp_env server !! "GOOGLE_API_KEY" = None ∧
        Tools.get_all_tools env w =
          (match mcp_get_tools env server with
           | Returned mcp_tools =>
               Returned (mcp_tools ++ ["think_tool"; "internet_search"])%list
           | Raised e => Raised e
           | Cancelled => Cancelled
           end, w)
  end.
Proof.
  unfold Tools.get_all_tools, Tools.get_browserbase_mcp_client,
    Tools.environ_get, mbind, M_bind, mret, M_ret, lift_outcome, raise.
  destruct (environ env !! "BROWSERBASE_API_KEY") as [k1|]; [|done].
  destruct (environ env !! "BROWSERBASE_PROJECT_ID") as [k2|]; [|done].
  destruct (environ env !! "GOOGLE_API_KEY") as [k3|]; [|done].
  exists {| mcp_command := "npx";
            mcp_args := ["@browserbasehq/mcp"];
            mcp_env := <["BROWSERBASE_API_KEY" := k1]>
                       (<["BROWSERBASE_PROJECT_ID" := k2]>
                       (<["GEMINI_API_KEY" := k3]> ∅));
            mcp_transport := "stdio" |}.
  split_and!; [done..| | | | |].
  - cbn. by rewrite lookup_insert_eq.
  - cbn. rewrite lookup_insert_ne by done. by rewrite lookup_insert_eq.
  - cbn. rewrite !lookup_insert_ne by done. by rewrite lookup_insert_eq.
  - cbn. by rewrite !lookup_insert_ne by done.
  - by destruct (mcp_get_tools env _).
Qed.

(** X2. [get_all_tools] is [get_browserbase_tools] with the static tools
    appended: it fails exactly as [get_browserbase_tools] fails, and when
    it returns, its list is the browser tools followed by [think_tool] and
    [internet_search], so it is never empty and two longer than theirs. *)
Theorem get_all_tools_extends_browserbase (env : Env) (w : World) :
  Tools.get_all_tools env w
  = (mcp_tools ← get_browserbase_tools env;
     mret (mcp_tools ++ Tools.static_tools)%list) w
  ∧ (∀ tools w', Tools.get_all_tools env w = (Returned tools, w') →
       ∃ mcp_tools,
         get_browserbase_tools env w = (Returned mcp_tools, w') ∧
         tools = (mcp_tools ++ ["think_tool"; "internet_search"])%list ∧
         length tools = length mcp_tools + 2)
  ∧ (∀ e w', get_browserbase_tools env w = (Raised e, w') →
       Tools.get_all_tools env w = (Raised e, w'))
  ∧ (∀ w', get_browserbase_tools env w = (Cancelled, w') →
       Tools.get_all_tools env w = (Cancelled, w')).
Proof.
  assert (Tools.get_all_tools env w
          = (mcp_tools ← get_browserbase_tools env;
             mret (mcp_tools ++ Tools.static_tools)%list) w) as Heq.
  { unfold Tools.get_all_tools, get_browserbase_tools, mbind, M_bind, mret,
      M_ret, lift_outcome.
    destruct (Tools.get_browserbase_mcp_client env w) as [[client| |] w1];
      [|done..].
    by destruct (mcp_get_tools env client). }
  split; [exact Heq|]. rewrite Heq. unfold mbind, M_bind, mret, M_ret.
  split_and!.
  - intros tools w'.
    destruct (get_browserbase_tools env w) as [[mcp| |] w1]; intros [=]; subst.
    exists mcp. split_and!; [done..|]. rewrite length_app. done.
  - by intros e w' ->.
  - by intros w' ->.
Qed.

(** X2, on an instance: the sample server offers one tool. *)
Lemma get_all_tools_extends_browserbase_witness :
  Tools.get_all_tools sample_env sample_world
  = (Returned ["browserbase_stagehand_navigate"; "think_tool"; "internet_search"],
     sample_world)
  ∧ ∃ mcp_tools,
      get_browserbase_tools sample_env sample_world
        = (Returned mcp_tools, sample_world) ∧
      length ["browserbase_stagehand_navigate"; "think_tool"; "internet_search"]
        = length mcp_tools + 2.
Proof.
  assert (Tools.get_all_tools sample_env sample_world
          = (Returned ["browserbase_stagehand_navigate"; "think_tool";
                       "internet_search"], sample_world)) as Hrun
    by (vm_compute; reflexivity).
  split; [exact Hrun|].
  destruct (get_all_tools_extends_browserbase sample_env sample_world)
    as (_ & Hret & _).
  destruct (Hret _ _ Hrun) as (mcp & Hmcp & _ & Hlen).
  exists mcp. by split.
Defined.

Lemma substring_all (s : string) : String.substring 0 (String.length s) s = s.
Proof. induction s as [|c s IH]; [done|]. cbn. by rewrite IH. Qed.

Lemma substring_after_prefix (p s : string) :
  String.substring (String.length p) (String.length s) (p +:+ s) = s.
Proof. induction p as [|c p IH]; [apply substring_all|exact IH]. Qed.

(** X3. [think_tool] never fails and its confirmation can be read back:
    it is the fixed 21-character prefix followed by the reflection as it was
    given, so two different reflections are never confirmed alike. *)
Theorem think_tool_reads_back (reflection other : string) :
  String.prefix "Reflection recorded: " (Tools.think_tool reflection) = true ∧
  String.substring 21 (String.length reflection) (Tools.think_tool reflection)
    = reflection ∧
  String.length (Tools.think_tool reflection) = 21 + String.length reflection ∧
  (Tools.think_tool reflection = Tools.think_tool other → reflection = other).
Proof.
  split_and!.
  - cbn. by destruct reflection.
  - exact (substring_after_prefix "Reflection recorded: " reflection).
  - done.
  - unfold Tools.think_tool. intros Heq. by simplify_eq/=.
Qed.

(** X4. [internet_search] raises [KeyError] for TAVILY_API_KEY when that
    variable is not set, whatever the search service would have answered;
    when it is set, the outcome is the service's for the stored key, the
    query as given and [max_results], which is 5 when the caller leaves it
    out. The world is left untouched. *)
Theorem internet_search_outcome {R : Type} (env : Env)
    (tavily_search : string → string → Z → outcome R)
    (query : string) (max_results : option Z) (w : World) :
  match environ env !! "TAVILY_API_KEY" with
  | None =>
      internet_search R env tavily_search query max_results w
      = (Raised (KeyError "TAVILY_API_KEY"), w)
  | Some api_key =>
      internet_search R env tavily_search query max_results w
      = (tavily_search api_key query
           (match max_results with Some n => n | None => 5%Z end), w)
  end.
Proof.
  unfold internet_search, get_tavily_client, Tools.environ_get, mbind, M_bind,
    mret, M_ret, lift_outcome, raise.
  destruct (environ env !! "TAVILY_API_KEY"); [|done].
  by destruct max_results.
Qed.

(** ** The stage that runs the agent *)

Section RunDeepAgentFacts.
Variable workflow : string.
Variable delegation : list (Fragment Deep.DelegationField).
Variable researcher : list (Fragment Deep.ResearcherField).
Variable env : Env.

Local Abbreviation run_deep_agent :=
  (Deep.run_deep_agent workflow delegation researcher env).
Local Abbreviation deep_agent_spec :=
  (Deep.deep_agent_spec workflow delegation researcher env).

Local Ltac unfold_stage :=
  unfold Deep.run_deep_agent, init_chat_model, with_,
    Deep.create_sandbox_enter, Deep.create_sandbox_exit,
    Deep.ModelFallbackMiddleware_init, Deep.create_deep_agent, mbind, M_bind,
    mret, M_ret, lift_outcome, raise, emit; cbv zeta.

Local Ltac split_outcomes H :=
  repeat match type of H with
  | context [match ?o with Returned _ => _ | Raised _ => _ | Cancelled => _ end] =>
      destruct o eqn:?
  | context [match ?o with Some _ => _ | None => _ end] => destruct o eqn:?
  | context [let '(_, _) := ?p in _] => destruct p eqn:?
  end; simplify_eq/=.

(** The stage when every step of it succeeds. *)
Lemma run_deep_agent_success (state : Deep.State) (ctx : Deep.Context)
    (w : World) tools backend agent input result :
  Tools.get_all_tools env w = (Returned tools, w) →
  resolve_model env (Deep.model_name ctx) = Returned () →
  sandbox_enter env "daytona" "scripts/sandbox_setup.sh" = Returned backend →
  resolve_model env "gpt-4o-mini" = Returned () →
  deep_agent_of env (deep_agent_spec ctx tools backend) = Returned agent →
  Deep.messages state = Some input →
  agent input = Returned result →
  sandbox_exit env backend = Returned () →
  run_deep_agent state ctx w =
    (Returned {| Deep.messages := Some (default [] (result_messages result));
                 Deep.query := None;
                 Deep.research_complete := Some true |},
     {| next_uuid := next_uuid w;
        events := (events w ++
          [EvSandboxEnter "daytona" "scripts/sandbox_setup.sh";
           EvCreateDeepAgent (deep_agent_spec ctx tools backend);
           EvAgentInvoke input;
           EvSandboxExit])%list |}).
Proof.
  intros Htools Hmodel Henter Hfallback Hagent Hin Hres Hexit.
  unfold_stage. rewrite Htools, Hmodel, Henter. cbn. rewrite Hfallback.
  unfold Deep.deep_agent_spec in Hagent. rewrite Hagent, Hin. cbn.
  rewrite Hres, Hexit. by rewrite <- !app_assoc.
Qed.

(** X5. [run_deep_agent] returns exactly when every step of it does: the
    tools are fetched, the model is resolved, the sandbox is acquired, the
    fallback middleware is built - its model "gpt-4o-mini" is resolved -,
    the agent is created, the state holds [messages], the agent answers,
    and the sandbox is released without error. Its result then holds the
    messages of the agent's answer - the empty list when the answer has
    none -, the completion flag, and no [query]; the agent was invoked on
    exactly the messages of the state; no uuid was drawn. *)
Theorem run_deep_agent_returns_iff (state : Deep.State) (ctx : Deep.Context)
    (w w' : World) (u : Deep.Update) :
  run_deep_agent state ctx w = (Returned u, w') ↔
  ∃ tools backend agent input result,
    Tools.get_all_tools env w = (Returned tools, w) ∧
    resolve_model env (Deep.model_name ctx) = Returned () ∧
    sandbox_enter env "daytona" "scripts/sandbox_setup.sh" = Returned backend ∧
    resolve_model env "gpt-4o-mini" = Returned () ∧
    deep_agent_of env (deep_agent_spec ctx tools backend) = Returned agent ∧
    Deep.messages state = Some input ∧
    agent input = Returned result ∧
    sandbox_exit env backend = Returned () ∧
    u = {| Deep.messages := Some (default [] (result_messages result));
           Deep.query := None;
           Deep.research_complete := Some true |} ∧
    w' = {| next_uuid := next_uuid w;
            events := (events w ++
              [EvSandboxEnter "daytona" "scripts/sandbox_setup.sh";
               EvCreateDeepAgent (deep_agent_spec ctx tools backend);
               EvAgentInvoke input;
               EvSandboxExit])%list |}.
Proof.
  pose proof (get_all_tools_world env w) as Hw.
  split.
  - unfold_stage.
    destruct (Tools.get_all_tools env w) as [[tools| |] w1]; cbn in Hw;
      subst w1; [|done..].
    intros Hrun. split_outcomes Hrun.
    repeat match goal with x : () |- _ => destruct x end.
    eexists tools, _, _, _, _. split_and!; try done.
    by rewrite <- !app_assoc.
  - intros (tools & backend & agent & input & result & Htools & Hmodel & Henter
            & Hfallback & Hagent & Hin & Hres & Hexit & -> & ->).
    by eapply run_deep_agent_success.
Qed.

(** X6. When fetching the tools, resolving the model or acquiring the
    sandbox does not succeed, [run_deep_agent] ends with that very failure
    or cancellation and has done nothing else: no agent was created or
    invoked, nothing was released, the trace is as it was. Once the sandbox
    is acquired, the fallback middleware is built: when its model
    "gpt-4o-mini" cannot be resolved, the sandbox is released at once, no
    agent is created, and the stage does not return; when it is resolved,
    the creation of the agent is the next event after the acquisition. *)
Theorem run_deep_agent_fails_before_sandbox (state : Deep.State)
    (ctx : Deep.Context) (w : World) :
  match Tools.get_all_tools env w with
  | (Raised e, _) => run_deep_agent state ctx w = (Raised e, w)
  | (Cancelled, _) => run_deep_agent state ctx w = (Cancelled, w)
  | (Returned tools, _) =>
      match resolve_model env (Deep.model_name ctx) with
      | Raised e => run_deep_agent state ctx w = (Raised e, w)
      | Cancelled => run_deep_agent state ctx w = (Cancelled, w)
      | Returned _ =>
          match sandbox_enter env "daytona" "scripts/sandbox_setup.sh" with
          | Raised e => run_deep_agent state ctx w = (Raised e, w)
          | Cancelled => run_deep_agent state ctx w = (Cancelled, w)
          | Returned backend =>
              ∃ o w', run_deep_agent state ctx w = (o, w') ∧
                match resolve_model env "gpt-4o-mini" with
                | Returned _ =>
                    ∃ rest, events w' =
                      (events w ++
                         EvSandboxEnter "daytona" "scripts/sandbox_setup.sh"
                         :: EvCreateDeepAgent (deep_agent_spec ctx tools backend)
                         :: rest)%list
                | failure =>
                    is_returned o = false ∧
                    events w' =
                      (events w ++
                         [EvSandboxEnter "daytona" "scripts/sandbox_setup.sh";
                          EvSandboxExit])%list ∧
                    (sandbox_exit env backend = Returned () →
                     match failure with
                     | Raised e => o = Raised e
                     | _ => o = Cancelled
                     end)
                end
          end
      end
  end.
Proof.
  pose proof (get_all_tools_world env w) as Hw.
  unfold_stage.
  destruct (Tools.get_all_tools env w) as [[tools| |] w1]; cbn in Hw;
    subst w1; [|done..].
  destruct (resolve_model env (Deep.model_name ctx)); [|done..].
  destruct (sandbox_enter env "daytona" "scripts/sandbox_setup.sh")
    as [backend| |]; [|done..].
  cbn. destruct (resolve_model env "gpt-4o-mini") as [[]|e|].
  - repeat match goal with
    | |- context [match ?o with Returned _ => _ | Raised _ => _ | Cancelled => _ end] =>
        destruct o
    | |- context [match ?o with Some _ => _ | None => _ end] => destruct o
    end; cbn; do 2 eexists; (split; [reflexivity|]); cbn [events];
      rewrite <- ?app_assoc; cbn [app]; by eexists.
  - destruct (sandbox_exit env backend) as [[]| |]; do 2 eexists;
      (split; [reflexivity|]); cbn [events]; rewrite <- ?app_assoc;
      by split_and!.
  - destruct (sandbox_exit env backend) as [[]| |]; do 2 eexists;
      (split; [reflexivity|]); cbn [events]; rewrite <- ?app_assoc;
      by split_and!.
Qed.

(** X7. Called on a state that lacks the [messages] key, with the tools,
    the model, the sandbox, the fallback middleware and the agent at hand,
    [run_deep_agent] acquires the sandbox, creates the agent, never invokes
    it, releases the sandbox and raises [KeyError] for [messages] - or the
    error of the release, when the release fails. *)
Theorem run_deep_agent_without_messages (state : Deep.State)
    (ctx : Deep.Context) (w : World) tools backend agent :
  Deep.messages state = None →
  Tools.get_all_tools env w = (Returned tools, w) →
  resolve_model env (Deep.model_name ctx) = Returned () →
  sandbox_enter env "daytona" "scripts/sandbox_setup.sh" = Returned backend →
  resolve_model env "gpt-4o-mini" = Returned () →
  deep_agent_of env (deep_agent_spec ctx tools backend) = Returned agent →
  run_deep_agent state ctx w =
    (match sandbox_exit env backend with
     | Returned _ => Raised (KeyError "messages")
     | Raised e => Raised e
     | Cancelled => Cancelled
     end,
     {| next_uuid := next_uuid w;
        events := (events w ++
          [EvSandboxEnter "daytona" "scripts/sandbox_setup.sh";
           EvCreateDeepAgent (deep_agent_spec ctx tools backend);
           EvSandboxExit])%list |}).
Proof.
  intros Hnone Htools Hmodel Henter Hfallback Hagent.
  unfold_stage. rewrite Htools, Hmodel, Henter. cbn. rewrite Hfallback.
  unfold Deep.deep_agent_spec in Hagent. rewrite Hagent, Hnone. cbn.
  destruct (sandbox_exit env backend); by rewrite <- !app_assoc.
Qed.

(** X8. A release that fails takes precedence over the agent's answer: when
    everything up to the agent's answer succeeded and leaving the sandbox
    raises, [run_deep_agent] raises that error and the answer is lost. *)
Theorem run_deep_agent_release_fails (state : Deep.State)
    (ctx : Deep.Context) (w : World) tools backend agent input result e :
  Tools.get_all_tools env w = (Returned tools, w) →
  resolve_model env (Deep.model_name ctx) = Returned () →
  sandbox_enter env "daytona" "scripts/sandbox_setup.sh" = Returned backend →
  deep_agent_of env (deep_agent_spec ctx tools backend) = Returned agent →
  Deep.messages state = Some input →
  agent input = Returned result →
  sandbox_exit env backend = Raised e →
  ∃ w', run_deep_agent state ctx w = (Raised e, w') ∧
        sandbox_scoped false (drop (length (events w)) (events w')) = true.
Proof.
  intros Htools Hmodel Henter Hagent Hin Hres Hexit.
  unfold_stage. rewrite Htools, Hmodel, Henter. cbn.
  destruct (resolve_model env "gpt-4o-mini") as [[]| |].
  - unfold Deep.deep_agent_spec in Hagent. rewrite Hagent, Hin. cbn.
    rewrite Hres, Hexit. eexists. split; [reflexivity|]. cbn [events].
    rewrite <- !app_assoc. by rewrite drop_app_length.
  - rewrite Hexit. eexists. split; [reflexivity|]. cbn [events].
    rewrite <- !app_assoc. by rewrite drop_app_length.
  - rewrite Hexit. eexists. split; [reflexivity|]. cbn [events].
    rewrite <- !app_assoc. by rewrite drop_app_length.
Qed.

(** What every call of [run_deep_agent] leaves behind: no stage is
    announced, no uuid is drawn, and a result holds messages and the
    completion flag but no query. *)
Lemma run_deep_agent_shape (state : Deep.State) (ctx : Deep.Context)
    (w w' : World) o :
  run_deep_agent state ctx w = (o, w') →
  stages_of (events w') = stages_of (events w) ∧
  next_uuid w' = next_uuid w ∧
  (∀ u, o = Returned u →
     Deep.query u = None ∧ Deep.research_complete u = Some true ∧
     is_Some (Deep.messages u)).
Proof.
  pose proof (get_all_tools_world env w) as Hw.
  unfold_stage.
  destruct (Tools.get_all_tools env w) as [[tools| |] w1]; cbn in Hw;
    subst w1; [|by intros [= <- <-]..].
  intros Hrun. split_outcomes Hrun;
    (split; [unfold stages_of; rewrite ?omap_app; cbn; by rewrite ?app_nil_r|]);
    (split; [done|]); intros u [=]; subst; by split_and!.
Qed.

(** X10. An answer of the agent that holds no [messages] changes nothing
    in the conversation: when every step of the stage succeeds - the
    fallback middleware is built, too -, [run_deep_agent] returns the empty
    list, and merging its result into a state whose messages all carry ids
    leaves these messages as they are, keeps the query and sets the
    completion flag. *)
Theorem empty_answer_keeps_conversation (state : Deep.State)
    (ctx : Deep.Context) (w : World) tools backend agent input :
  Tools.get_all_tools env w = (Returned tools, w) →
  resolve_model env (Deep.model_name ctx) = Returned () →
  sandbox_enter env "daytona" "scripts/sandbox_setup.sh" = Returned backend →
  resolve_model env "gpt-4o-mini" = Returned () →
  deep_agent_of env (deep_agent_spec ctx tools backend) = Returned agent →
  Deep.messages state = Some input →
  Forall has_id input →
  agent input = Returned {| result_messages := None |} →
  sandbox_exit env backend = Returned () →
  ∃ w',
    (run_deep_agent state ctx ≫= Deep.apply_update state) w =
      (Returned {| Deep.messages := Some input;
                   Deep.query := Deep.query state;
                   Deep.research_complete := Some true |}, w') ∧
    next_uuid w' = next_uuid w.
Proof.
  intros Htools Hmodel Henter Hfallback Hagent Hin Hids Hres Hexit. eexists.
  erewrite bind_returned
    by (eapply run_deep_agent_success; [done..|exact Hres|done]).
  unfold Deep.apply_update. rewrite Hin. cbn [Deep.messages Deep.query
    Deep.research_complete result_messages default].
  erewrite bind_returned.
  2:{ erewrite bind_returned; [reflexivity|]. by apply add_messages_nil_r. }
  done.
Qed.
End RunDeepAgentFacts.

(** X5, on an instance: the sample collaborators, a state holding one
    message. *)
Lemma run_deep_agent_returns_iff_witness :
  let input := [with_id (HumanMessage "What is LangGraph?") (Uuid 0)] in
  let state := {| Deep.messages := Some input; Deep.query := None;
                  Deep.research_complete := Some false |} in
  ∃ w',
    Deep.run_deep_agent sample_workflow sample_delegation sample_researcher
      sample_env state Deep.default_Context sample_world
    = (Returned {| Deep.messages := Some (input ++ [sample_reply])%list;
                   Deep.query := None;
                   Deep.research_complete := Some true |}, w').
Proof.
  intros input state. eexists.
  apply run_deep_agent_returns_iff.
  exists sample_tools, sample_backend, sample_agent, input,
         {| result_messages := Some (input ++ [sample_reply])%list |}.
  split_and!; reflexivity.
Defined.

(** X7, on an instance: the sample collaborators and a state without
    [messages]. *)
Lemma run_deep_agent_without_messages_witness :
  ∃ w',
    Deep.run_deep_agent sample_workflow sample_delegation sample_researcher
      sample_env state_without_messages Deep.default_Context sample_world
    = (Raised (KeyError "messages"), w') ∧
    events w' =
      [EvSandboxEnter "daytona" "scripts/sandbox_setup.sh";
       EvCreateDeepAgent
         (Deep.deep_agent_spec sample_workflow sample_delegation
            sample_researcher sample_env Deep.default_Context sample_tools
            sample_backend);
       EvSandboxExit].
Proof.
  eexists. split.
  - refine (run_deep_agent_without_messages sample_workflow sample_delegation
              sample_researcher sample_env state_without_messages
              Deep.default_Context sample_world sample_tools sample_backend
              sample_agent eq_refl _ eq_refl eq_refl eq_refl eq_refl).
    vm_compute. reflexivity.
  - reflexivity.
Defined.

(** X8, on an instance: the sample collaborators with a release that
    fails. *)
Lemma run_deep_agent_release_fails_witness :
  ∃ w',
    Deep.run_deep_agent sample_workflow sample_delegation sample_researcher
      sample_env_release_fails sample_input Deep.default_Context sample_world
    = (Raised (CollaboratorError "sandbox not deleted"), w').
Proof.
  destruct (run_deep_agent_release_fails sample_workflow sample_delegation
              sample_researcher sample_env_release_fails sample_input
              Deep.default_Context sample_world sample_tools sample_backend
              sample_agent [] {| result_messages := Some [sample_reply] |}
              (CollaboratorError "sandbox not deleted"))
    as (w' & Hrun & _); [reflexivity..|].
  by exists w'.
Defined.

(** X10, on an instance: the sample collaborators with an agent whose
    answer holds no messages, and a conversation of two messages. *)
Lemma empty_answer_keeps_conversation_witness :
  let state := {| Deep.messages := Some sample_conversation;
                  Deep.query := Some "What is LangGraph?";
                  Deep.research_complete := Some false |} in
  ∃ w',
    (Deep.run_deep_agent sample_workflow sample_delegation sample_researcher
       sample_env_silent state Deep.default_Context
     ≫= Deep.apply_update state) sample_world
    = (Returned {| Deep.messages := Some sample_conversation;
                   Deep.query := Some "What is LangGraph?";
                   Deep.research_complete := Some true |}, w').
Proof.
  intros state.
  destruct (empty_answer_keeps_conversation sample_workflow sample_delegation
              sample_researcher sample_env_silent state Deep.default_Context
              sample_world sample_tools sample_backend
              (λ _, Returned {| result_messages := None |})
              sample_conversation) as (w' & Hrun & _);
    try reflexivity.
  - repeat constructor; by eexists.
  - by exists w'.
Defined.

(** ** Runs of the research graph *)

Lemma bind_ext {W A B} (m : M W A) (f g : A → M W B) w :
  (∀ a w1, f a w1 = g a w1) → (m ≫= f) w = (m ≫= g) w.
Proof.
  intros Hfg. unfold mbind, M_bind. by destruct (m w) as [[a| |] w1].
Qed.

(** A superstep over a single node, as a computation. *)
Lemma run_steps_one {S U C} (apply_update : S → U → M World S)
    (limit : nat) (g : StateGraph S U C) (ctx : C) (name : string)
    (stage : Node S U C) (s : S) (w : World) :
  find_node name (nodes g) = Some stage →
  run_steps apply_update (Datatypes.S limit) g ctx [name] s w
  = (_ ← emit (EvNode name);
     u ← stage s ctx;
     s' ← apply_update s u;
     run_steps apply_update limit g ctx (successors g [name]) s') w.
Proof.
  intros Hfind. cbn [run_steps run_nodes]. unfold run_node. rewrite Hfind.
  unfold mbind, M_bind, emit, mret, M_ret.
  destruct (stage s ctx _) as [[u| |] w1]; [|done..].
  cbn [apply_updates]. unfold mbind, M_bind, mret, M_ret.
  by destruct (apply_update s u w1) as [[s'| |] w2].
Qed.

Section RunFacts.
Variable workflow : string.
Variable delegation : list (Fragment Deep.DelegationField).
Variable researcher : list (Fragment Deep.ResearcherField).
Variable env : Env.

Local Abbreviation run := (Deep.run workflow delegation researcher env).
Local Abbreviation run_deep_agent :=
  (Deep.run_deep_agent workflow delegation researcher env).
Local Abbreviation pipeline :=
  (research_pipeline workflow delegation researcher env).

Lemma run_pipeline_eq (config : RunnableConfig) (input : Deep.State)
    (ctx : Deep.Context) (w : World) :
  run config input ctx w = pipeline input ctx w.
Proof.
  unfold Deep.run, ainvoke, research_pipeline, DEFAULT_RECURSION_LIMIT.
  apply bind_ext. intros s0 w0. rewrite successors_start.
  erewrite run_steps_one by reflexivity.
  apply bind_ext. intros _ w1. apply bind_ext. intros u1 w2.
  apply bind_ext. intros s1 w3. rewrite successors_prepare.
  erewrite run_steps_one by reflexivity.
  apply bind_ext. intros _ w4. apply bind_ext. intros u2 w5.
  apply bind_ext. intros s2 w6. rewrite successors_run.
  erewrite run_steps_one by reflexivity.
  apply bind_ext. intros _ w7. apply bind_ext. intros u3 w8.
  unfold mbind, M_bind.
  destruct (Deep.apply_update s2 u3 w8) as [[s3| |] w9]; [|done..].
  by rewrite successors_finalize.
Qed.

(** X12. Whatever the configuration, the input, the context and the
    collaborators, a run of the compiled research graph is the three stages
    one after the other: [prepare_research], [run_deep_agent],
    [finalize_research], each called on the state merged from the input and
    the results of the stages before it, and the run ends with the first
    merge or stage that does not return. *)
Theorem run_is_pipeline (config : RunnableConfig) (input : Deep.State)
    (ctx : Deep.Context) (w : World) :
  run config input ctx w = pipeline input ctx w.
Proof. apply run_pipeline_eq. Qed.
Lemma apply_update_plain s u w s' w' :
  Deep.apply_update s u w = (Returned s', w') →
  Deep.query s' = match Deep.query u with
                  | Some q => Some q
                  | None => Deep.query s
                  end ∧
  Deep.research_complete s' = match Deep.research_complete u with
                              | Some b => Some b
                              | None => Deep.research_complete s
                              end ∧
  (is_Some (Deep.messages s) → is_Some (Deep.messages s')).
Proof.
  unfold Deep.apply_update, mbind, M_bind, mret, M_ret.
  destruct (Deep.messages u) as [new|]; [|by intros [= <- <-]].
  destruct (Deep.messages s) as [current|]; [|by intros [= <- <-]].
  destruct (add_messages current new w) as [[out| |] w1]; intros [= <- <-].
  by split_and!.
Qed.

Local Ltac stages_step :=
  unfold stages_of in *; cbn [events] in *;
  rewrite ?omap_app in *; cbn [omap] in *.

(** X13. A run of the research graph that returns has gone through
    [prepare_research], [run_deep_agent] and [finalize_research], once each
    and in this order, whatever the input and the collaborators; its final
    state has the completion flag set, holds messages, and its query is the
    query of the input - no stage writes it. *)
Theorem run_returns_through_all_stages (config : RunnableConfig)
    (input : Deep.State) (ctx : Deep.Context) (w w' : World)
    (final : Deep.State) :
  run config input ctx w = (Returned final, w') →
  stages_of (events w') =
    (stages_of (events w) ++
       ["prepare_research"; "run_deep_agent"; "finalize_research"])%list ∧
  Deep.research_complete final = Some true ∧
  Deep.query final = Deep.query input ∧
  is_Some (Deep.messages final).
Proof.
  rewrite run_pipeline_eq.
  unfold research_pipeline, mbind, M_bind, emit, Deep.prepare_research,
    Deep.finalize_research, mret, M_ret.
  destruct (Deep.apply_update Deep.initial_state input w)
    as [[s0| |] w0] eqn:H0; [|done..].
  destruct (Deep.apply_update s0 _ _) as [[s1| |] w1] eqn:H1; [|done..].
  destruct (Deep.run_deep_agent _ _ _ _ s1 ctx _) as [[u2| |] w2] eqn:H2;
    [|done..].
  destruct (Deep.apply_update s1 u2 w2) as [[s2| |] w3] eqn:H3; [|done..].
  destruct (Deep.apply_update s2 _ _) as [[s3| |] w4] eqn:H4; [|done..].
  intros [= <- <-].
  pose proof (apply_update_world _ _ _ _ _ H0) as [E0 _].
  pose proof (apply_update_world _ _ _ _ _ H1) as [E1 _].
  pose proof (apply_update_world _ _ _ _ _ H3) as [E3 _].
  pose proof (apply_update_world _ _ _ _ _ H4) as [E4 _].
  apply run_deep_agent_shape in H2 as (E2 & _ & Hu2).
  destruct (Hu2 u2 eq_refl) as (Hq2 & Hc2 & Hm2).
  apply apply_update_plain in H0 as (Q0 & _ & M0).
  apply apply_update_plain in H1 as (Q1 & _ & M1).
  apply apply_update_plain in H3 as (Q3 & _ & M3).
  apply apply_update_plain in H4 as (Q4 & C4 & M4).
  cbn in Q0, Q1, Q4, C4, E1, E4. rewrite Hq2 in Q3.
  split_and!.
  - rewrite E4. stages_step. rewrite E3, E2. stages_step.
    rewrite E1. stages_step. rewrite E0. by rewrite <- !app_assoc.
  - done.
  - rewrite Q4, Q3, Q1, Q0. by destruct (Deep.query input).
  - apply M4, M3, M1, M0. by eexists.
Qed.

(** X14. A run of the research graph that does not return has never
    entered [finalize_research]: it stopped while the input was merged,
    after [prepare_research], or after [run_deep_agent], and the stages it
    announced are a prefix of the three in their order. *)
Theorem run_failure_skips_finalize (config : RunnableConfig)
    (input : Deep.State) (ctx : Deep.Context) (w w' : World)
    (o : outcome Deep.State) :
  run config input ctx w = (o, w') →
  is_returned o = false →
  ∃ entered,
    stages_of (events w') = (stages_of (events w) ++ entered)%list ∧
    (entered = [] ∨ entered = ["prepare_research"] ∨
     entered = ["prepare_research"; "run_deep_agent"]).
Proof.
  rewrite run_pipeline_eq.
  unfold research_pipeline, mbind, M_bind, emit, Deep.prepare_research,
    Deep.finalize_research, mret, M_ret.
  destruct (Deep.apply_update Deep.initial_state input w)
    as [[s0| |] w0] eqn:H0.
  2,3: intros [= <- <-] _; exists []; rewrite app_nil_r;
    apply apply_update_world in H0 as [-> _]; by split; [|left].
  pose proof (apply_update_world _ _ _ _ _ H0) as [E0 _].
  destruct (Deep.apply_update s0 _ _) as [[s1| |] w1] eqn:H1.
  2,3: intros [= <- <-] _; exists ["prepare_research"];
    apply apply_update_world in H1 as [-> _]; stages_step; rewrite E0;
    by split; [|right; left].
  pose proof (apply_update_world _ _ _ _ _ H1) as [E1 _].
  assert (∀ w2, stages_of (events w2) =
                  stages_of (events w1 ++ [EvNode "run_deep_agent"])%list →
            stages_of (events w2) =
              (stages_of (events w) ++
                 ["prepare_research"; "run_deep_agent"])%list) as Hstages.
  { intros w2 ->. stages_step. rewrite E1. stages_step. rewrite E0.
    by rewrite <- !app_assoc. }
  destruct (Deep.run_deep_agent _ _ _ _ s1 ctx _) as [[u2| |] w2] eqn:H2.
  2,3: intros [= <- <-] _; exists ["prepare_research"; "run_deep_agent"];
    apply run_deep_agent_shape in H2 as (E2 & _);
    by split; [apply Hstages|right; right].
  apply run_deep_agent_shape in H2 as (E2 & _).
  destruct (Deep.apply_update s1 u2 w2) as [[s2| |] w3] eqn:H3.
  2,3: intros [= <- <-] _; exists ["prepare_research"; "run_deep_agent"];
    apply apply_update_world in H3 as [E3 _];
    split; [apply Hstages; unfold stages_of in *; by rewrite E3|by right; right].
  by intros [= <- <-].
Qed.
End RunFacts.

(** ** Messages that arrive without ids *)

Lemma assign_ids_stamp ms w :
  Forall (λ m, id m = None) ms →
  assign_ids ms w =
    (Returned (stamp_from (next_uuid w) ms),
     {| next_uuid := next_uuid w + length ms; events := events w |}).
Proof.
  intros Hms. revert w. induction Hms as [|m ms Hm _ IH]; intros w.
  - cbn. rewrite Nat.add_0_r. by destruct w.
  - cbn [assign_ids stamp_from length]. unfold assign_id. rewrite Hm.
    unfold mbind, M_bind, uuid4, mret, M_ret. rewrite IH. cbn.
    by rewrite Nat.add_succ_r.
Qed.

Lemma stamp_from_ids n ms :
  id <$> stamp_from n ms = (λ i, Some (Uuid i)) <$> seq n (length ms).
Proof.
  revert n. induction ms as [|m ms IH]; intros n; [done|].
  cbn. by rewrite IH.
Qed.

Lemma stamp_from_NoDup n ms : NoDup (id <$> stamp_from n ms).
Proof.
  rewrite stamp_from_ids. apply NoDup_fmap_2; [|apply NoDup_seq].
  by intros i j [=].
Qed.

Lemma stamp_from_Forall n ms :
  Forall (λ m, is_remove m = false) ms →
  Forall (λ m, is_remove m = false ∧ ∃ i, id m = Some (Uuid i))
    (stamp_from n ms).
Proof.
  intros Hms. revert n. induction Hms as [|m ms Hm _ IH]; intros n;
    constructor; [|apply IH].
  split; [exact Hm|by eexists].
Qed.

Section ConversationRun.
Variable workflow : string.
Variable delegation : list (Fragment Deep.DelegationField).
Variable researcher : list (Fragment Deep.ResearcherField).
Variable env : Env.

(** X15. A run on an input that brings its own messages - without ids, as
    the caller in [main] sends them - and no query, or any query once there
    are messages: with collaborators that succeed, the messages get the
    next uuids in their order, [prepare_research] adds nothing to them, the
    agent's new messages follow them, and the run returns with the
    completion flag set and the query of the input. *)
Theorem run_on_conversation (config : RunnableConfig) (input : Deep.State)
    (ctx : Deep.Context) (w : World) (ms : list Message) :
  collaborators_succeed env →
  Deep.messages input = Some ms →
  Forall (λ m, id m = None ∧ is_remove m = false) ms →
  ms ≠ [] ∨ default "" (Deep.query input) = "" →
  ∃ final w' reply,
    Deep.run workflow delegation researcher env config input ctx w
      = (Returned final, w') ∧
    Deep.messages final = Some (stamp_from (next_uuid w) ms ++ reply)%list ∧
    reply ≠ [] ∧ new_messages reply ∧
    Deep.query final = Deep.query input ∧
    Deep.research_complete final = Some true ∧
    next_uuid w' = next_uuid w + length ms.
Proof.
  intros Henv Hin Hms Hcond.
  set (stamped := stamp_from (next_uuid w) ms).
  assert (Forall (λ m, is_remove m = false ∧ ∃ i, id m = Some (Uuid i)) stamped)
    as Hstamped.
  { apply stamp_from_Forall. eapply Forall_impl; [exact Hms|]. by intros m [_ ?]. }
  assert (Forall has_id stamped) as Hids.
  { eapply Forall_impl; [exact Hstamped|]. intros m [_ [i Hi]]. by exists (Uuid i). }
  assert (Forall (λ m, is_remove m = false) stamped) as Hrm.
  { eapply Forall_impl; [exact Hstamped|]. by intros m [? _]. }
  pose proof (stamp_from_NoDup (next_uuid w) ms) as Hnd. fold stamped in Hnd.
  set (w0 := {| next_uuid := next_uuid w + length ms; events := events w |}).
  set (s0 := {| Deep.messages := Some stamped; Deep.query := Deep.query input;
                Deep.research_complete := Deep.research_complete input |}).
  set (s1 := {| Deep.messages := Some stamped; Deep.query := Deep.query input;
                Deep.research_complete := Some false |}).
  set (wa := {| next_uuid := next_uuid w0;
                events := (events w0 ++ [EvNode "prepare_research"])%list |}).
  set (wb := {| next_uuid := next_uuid wa;
                events := (events wa ++ [EvNode "run_deep_agent"])%list |}).
  destruct (run_deep_agent_returns workflow delegation researcher env s1 ctx wb
              stamped Henv eq_refl Hstamped)
    as (reply & w2 & Hne & [Hreply Hndr] & Hrun & Huuid & _).
  exists {| Deep.messages := Some (stamped ++ reply)%list;
            Deep.query := Deep.query input;
            Deep.research_complete := Some true |},
         {| next_uuid := next_uuid w2;
            events := (events w2 ++ [EvNode "finalize_research"])%list |},
         reply.
  split; [|split_and!; try done].
  rewrite run_pipeline_eq. unfold research_pipeline.
  (* the input is merged into the empty conversation *)
  erewrite (bind_returned _ _ w s0 w0).
  2:{ unfold Deep.apply_update. rewrite Hin. cbn [Deep.messages
        Deep.initial_state Deep.query Deep.research_complete].
      erewrite bind_returned.
      2:{ erewrite bind_returned; [reflexivity|].
          apply (add_messages_new [] ms w [] w stamped w0); [done| |done..|].
          - apply assign_ids_stamp. eapply Forall_impl; [exact Hms|].
            by intros m [? _].
          - intros m _. apply not_elem_of_nil. }
      unfold s0. by destruct (Deep.query input), (Deep.research_complete input). }
  erewrite (bind_returned _ _ w0 () wa) by reflexivity.
  (* prepare_research leaves the conversation alone *)
  erewrite (bind_returned _ _ wa
              {| Deep.messages := Some stamped; Deep.query := None;
                 Deep.research_complete := Some false |} wa).
  2:{ unfold Deep.prepare_research. cbn [s0 Deep.messages Deep.query default].
      destruct Hcond as [Hne'|Hq].
      - rewrite (bool_decide_eq_false_2 (stamped = [])); [by rewrite andb_false_r|].
        unfold stamped. by destruct ms.
      - rewrite Hq.
        by rewrite (bool_decide_eq_false_2 ("" ≠ "")) by (by intros []). }
  erewrite (bind_returned _ _ wa s1 wa).
  2:{ unfold Deep.apply_update. cbn [s0 Deep.messages Deep.query
        Deep.research_complete].
      erewrite bind_returned.
      2:{ erewrite bind_returned; [reflexivity|]. by apply add_messages_same. }
      reflexivity. }
  erewrite (bind_returned _ _ wa () wb) by reflexivity.
  erewrite bind_returned by exact Hrun.
  erewrite (bind_returned _ _ w2
              {| Deep.messages := Some (stamped ++ reply)%list;
                 Deep.query := Deep.query input;
                 Deep.research_complete := Some true |} w2).
  2:{ unfold Deep.apply_update. cbn [s1 Deep.messages Deep.query
        Deep.research_complete].
      erewrite bind_returned.
      2:{ erewrite bind_returned; [reflexivity|].
          apply add_messages_extend; try done.
          - eapply Forall_impl; [exact Hreply|].
            intros m [_ [s Hs]]. by exists (Given s).
          - eapply Forall_impl; [exact Hreply|]. by intros m [? _].
          - intros m Hm Hin'.
            eapply Forall_forall in Hreply as [_ [s Hs]]; [|exact Hm].
            rewrite Hs in Hin'. apply list_elem_of_fmap in Hin' as (m' & Hm' & Hin').
            eapply Forall_forall in Hstamped as [_ [i Hi]]; [|exact Hin'].
            congruence. }
      reflexivity. }
  reflexivity.
Qed.
End ConversationRun.

(** X15, on an instance: the question [main] sends, to the sample
    collaborators. *)
Lemma run_on_conversation_witness :
  let input := {| Deep.messages := Some [HumanMessage "What is LangGraph?"];
                  Deep.query := None; Deep.research_complete := None |} in
  ∃ final w' reply,
    Deep.run sample_workflow sample_delegation sample_researcher sample_env
      sample_config input Main.precise_context sample_world
      = (Returned final, w') ∧
    Deep.messages final =
      Some (with_id (HumanMessage "What is LangGraph?") (Uuid 0) :: reply) ∧
    reply ≠ [].
Proof.
  intros input.
  destruct (run_on_conversation sample_workflow sample_delegation
              sample_researcher sample_env sample_config input
              Main.precise_context sample_world
              [HumanMessage "What is LangGraph?"] sample_env_succeeds eq_refl)
    as (final & w' & reply & Hrun & Hm & Hne & _).
  - by apply Forall_singleton.
  - by left.
  - exists final, w', reply. split; [exact Hrun|]. split; [exact Hm|exact Hne].
Defined.

(** X13, on an instance: the sample run. *)
Lemma run_returns_through_all_stages_witness :
  ∃ final w',
    Deep.run sample_workflow sample_delegation sample_researcher sample_env
      sample_config sample_input Deep.default_Context sample_world
      = (Returned final, w') ∧
    stages_of (events w') =
      ["prepare_research"; "run_deep_agent"; "finalize_research"] ∧
    Deep.query final = Some "What is LangGraph?".
Proof.
  set (final := {| Deep.messages :=
                     Some [with_id (HumanMessage "What is LangGraph?") (Uuid 0);
                           sample_reply];
                   Deep.query := Some "What is LangGraph?";
                   Deep.research_complete := Some true |}).
  set (w' := (Deep.run sample_workflow sample_delegation sample_researcher
                sample_env sample_config sample_input Deep.default_Context
                sample_world).2).
  assert (Deep.run sample_workflow sample_delegation sample_researcher
            sample_env sample_config sample_input Deep.default_Context
            sample_world = (Returned final, w')) as Hrun
    by (vm_compute; reflexivity).
  exists final, w'. split; [exact Hrun|].
  destruct (run_returns_through_all_stages sample_workflow sample_delegation
              sample_researcher sample_env sample_config sample_input
              Deep.default_Context sample_world w' final Hrun)
    as (Hstages & _ & Hquery & _).
  by split.
Defined.

(** X14, on an instance: the release of the sandbox fails, the run stops
    after [run_deep_agent]. *)
Lemma run_failure_skips_finalize_witness :
  ∃ w' entered,
    Deep.run sample_workflow sample_delegation sample_researcher
      sample_env_release_fails sample_config sample_input Deep.default_Context
      sample_world = (Raised (CollaboratorError "sandbox not deleted"), w') ∧
    stages_of (events w') = entered ∧
    "finalize_research" ∉ entered.
Proof.
  set (w' := (Deep.run sample_workflow sample_delegation sample_researcher
                sample_env_release_fails sample_config sample_input
                Deep.default_Context sample_world).2).
  assert (Deep.run sample_workflow sample_delegation sample_researcher
            sample_env_release_fails sample_config sample_input
            Deep.default_Context sample_world
          = (Raised (CollaboratorError "sandbox not deleted"), w')) as Hrun
    by (vm_compute; reflexivity).
  destruct (run_failure_skips_finalize sample_workflow sample_delegation
              sample_researcher sample_env_release_fails sample_config
              sample_input Deep.default_Context sample_world w' _ Hrun eq_refl)
    as (entered & Hstages & Hcases).
  exists w', entered. split; [done|]. split; [done|].
  destruct Hcases as [-> | [-> | ->]]; intros Hin;
    repeat (apply elem_of_cons in Hin as [Hin|Hin]; [done|]);
    by apply elem_of_nil in Hin.
Defined.

(** ** The simple graph *)

(** X16. A run of the simple graph enters [call_model] once, on the
    messages of the input - none when the input has no [messages]. If the
    model cannot be resolved or its invocation fails or is cancelled, the
    run ends the same way; otherwise it returns the input messages followed
    by the one response the model gave for them. *)
Theorem simple_run_outcome (env : Env) (config : RunnableConfig)
    (input : Simple.Update) (ctx : Simple.Context) (w : World) :
  let ms := default [] (Simple.u_messages input) in
  let w1 := {| next_uuid := next_uuid w;
               events := (events w ++ [EvNode "call_model"])%list |} in
  simple_run env config input ctx w =
    match resolve_model env (Simple.model_name ctx) with
    | Returned _ =>
        match chat_model_ainvoke env
                {| model_id := Simple.model_name ctx;
                   model_temperature := Simple.temperature ctx |} ms with
        | Returned response =>
            (Returned {| Simple.messages := (ms ++ [response])%list |}, w1)
        | Raised e => (Raised e, w1)
        | Cancelled => (Cancelled, w1)
        end
    | Raised e => (Raised e, w1)
    | Cancelled => (Cancelled, w1)
    end.
Proof.
  intros ms w1.
  unfold simple_run, ainvoke, DEFAULT_RECURSION_LIMIT.
  erewrite (bind_returned _ _ w {| Simple.messages := ms |} w).
  2:{ unfold Simple.apply_update, ms. by destruct (Simple.u_messages input). }
  assert (successors (builder (Simple.build_graph env config)) [START]
          = ["call_model"]) as -> by reflexivity.
  erewrite run_steps_one by reflexivity.
  assert (successors (builder (Simple.build_graph env config)) ["call_model"]
          = []) as -> by reflexivity.
  unfold Simple.call_model, init_chat_model, Simple.apply_update, Simple.add,
    mbind, M_bind, mret, M_ret, lift_outcome, emit. cbn. fold w1.
  destruct (resolve_model env (Simple.model_name ctx)); [|done..].
  by destruct (chat_model_ainvoke env _ ms).
Qed.

(** ** Compiling with a configuration *)

(** X17. Both graphs are compiled with the debug flag of the
    configuration: it is on exactly when the configuration has a
    [configurable] entry holding a truthy value under [debug], and off when
    either is missing; the research graph is named "Research Agent". *)
Theorem compiled_debug_flag workflow delegation researcher (env : Env)
    (config : RunnableConfig) :
  (debug (Deep.build_graph workflow delegation researcher env config) = true ↔
     ∃ entries v, configurable config = Some entries ∧
                  entries !! "debug" = Some v ∧ truthy v = true) ∧
  debug (Simple.build_graph env config)
    = debug (Deep.build_graph workflow delegation researcher env config) ∧
  graph_name (Deep.build_graph workflow delegation researcher env config)
    = "Research Agent" ∧
  (configurable config = None →
     debug (Deep.build_graph workflow delegation researcher env config) = false).
Proof.
  split_and!; [|done|done|by intros Hnone; cbn; unfold config_debug; rewrite Hnone].
  cbn. unfold config_debug.
  destruct (configurable config) as [entries|]; cbn.
  - destruct (entries !! "debug") as [v|] eqn:Hv; cbn.
    + split; [intros Ht; by exists entries, v|].
      intros (entries' & v' & [= <-] & Hv' & Ht). by simplify_eq.
    + split; [done|]. intros (entries' & v' & [= <-] & Hv' & _). by simplify_eq.
  - split; [done|]. by intros (? & ? & [=] & _).
Qed.

(** X17, on the two configurations of the unit tests. *)
Example compiled_debug_flag_tests :
  debug (Simple.build_graph sample_env
           {| configurable := Some {[ "debug" := PyBool false ]} |}) = false ∧
  debug (Simple.build_graph sample_env
           {| configurable := Some {[ "debug" := PyBool true ]} |}) = true.
Proof. split; reflexivity. Qed.

(** ** The agent a stage creates *)

(** X19. Every agent [run_deep_agent] creates has exactly one sub-agent,
    named "research-agent"; that sub-agent is given the very tool list of
    the agent itself, which ends with [think_tool] and [internet_search];
    the agent's model carries the name and the temperature of the context,
    and its backend routes nothing away from the sandbox. *)
Theorem created_agent_shape workflow delegation researcher (env : Env)
    (state : Deep.State) (ctx : Deep.Context) (w w' : World)
    (o : outcome Deep.Update) (spec : DeepAgentSpec) :
  Deep.run_deep_agent workflow delegation researcher env state ctx w = (o, w') →
  EvCreateDeepAgent spec ∈ drop (length (events w)) (events w') →
  (∃ delegate mcp_tools,
     spec_subagents spec = [delegate] ∧
     sa_name delegate = "research-agent" ∧
     sa_tools delegate = spec_tools spec ∧
     spec_tools spec = (mcp_tools ++ ["think_tool"; "internet_search"])%list) ∧
  model_id (spec_model spec) = Deep.model_name ctx ∧
  model_temperature (spec_model spec) = Deep.temperature ctx ∧
  routes (spec_backend spec) = ∅.
Proof.
  intros Hrun Hin.
  pose proof (get_all_tools_extends_tools env w) as Htools.
  pose proof (get_all_tools_world env w) as Hw.
  revert Hrun.
  unfold Deep.run_deep_agent, init_chat_model, with_,
    Deep.create_sandbox_enter, Deep.create_sandbox_exit,
    Deep.ModelFallbackMiddleware_init, Deep.create_deep_agent, mbind, M_bind,
    mret, M_ret, lift_outcome, raise, emit; cbv zeta.
  destruct (Tools.get_all_tools env w) as [[tools| |] w1] eqn:Hget;
    cbn in Hw; subst w1.
  2,3: intros [= <- <-]; rewrite drop_ge in Hin by done;
    by apply elem_of_nil in Hin.
  destruct (Htools tools eq_refl) as [mcp ->].
  intros Hrun.
  repeat match type of Hrun with
  | context [match ?o with Returned _ => _ | Raised _ => _ | Cancelled => _ end] =>
      destruct o eqn:?
  | context [match ?o with Some _ => _ | None => _ end] => destruct o eqn:?
  end; simplify_eq/=;
  rewrite <- ?app_assoc, ?drop_app_length in Hin;
  try (rewrite drop_ge in Hin by done);
  repeat (apply elem_of_cons in Hin as [Hin|Hin]; simplify_eq/=);
  try (by apply elem_of_nil in Hin);
  (split; [by eexists _, mcp|done]).
Qed.

(** X19, on an instance: the agent the sample run creates. *)
Lemma created_agent_shape_witness :
  ∃ spec delegate,
    EvCreateDeepAgent spec ∈
      events (Deep.run_deep_agent sample_workflow sample_delegation
                sample_researcher sample_env sample_input Deep.default_Context
                sample_world).2 ∧
    spec_subagents spec = [delegate] ∧
    sa_tools delegate = spec_tools spec ∧
    spec_tools spec = sample_tools.
Proof.
  set (spec := Deep.deep_agent_spec sample_workflow sample_delegation
                 sample_researcher sample_env Deep.default_Context sample_tools
                 sample_backend).
  set (r := Deep.run_deep_agent sample_workflow sample_delegation
              sample_researcher sample_env sample_input Deep.default_Context
              sample_world).
  assert (events r.2 =
            [EvSandboxEnter "daytona" "scripts/sandbox_setup.sh";
             EvCreateDeepAgent spec; EvAgentInvoke []; EvSandboxExit]) as Hev
    by reflexivity.
  assert (EvCreateDeepAgent spec ∈ events r.2) as Hin
    by (rewrite Hev; apply list_elem_of_further, list_elem_of_here).
  destruct (created_agent_shape sample_workflow sample_delegation
              sample_researcher sample_env sample_input Deep.default_Context
              sample_world r.2 r.1 spec)
    as ((delegate & mcp & Hsub & _ & Htools & _) & _).
  - apply surjective_pairing.
  - exact Hin.
  - exists spec, delegate. split; [exact Hin|]. split; [exact Hsub|].
    split; [exact Htools|reflexivity].
Defined.

(** ** Failures of the assistants service *)

Section ClientFailures.
Context {S : Type} `{Main.LangGraphClient S}.

(** X20. When the search for the name fails or is cancelled,
    [get_or_create_assistant] ends the same way: the search is the only
    call issued, no creation is attempted and nothing is logged. *)
Theorem get_or_create_assistant_search_fails (name graph_id : string)
    (config : option RunnableConfig) (context : option Deep.Context)
    (w : Main.ClientWorld S) (o : outcome (list Main.Assistant)) (s' : S) :
  Main.assistants_search {[ "name" := name ]} (Main.service w) = (o, s') →
  is_returned o = false →
  ∃ o',
    Main.get_or_create_assistant name graph_id config context w =
      (o',
       {| Main.service := s';
          Main.calls := (Main.calls w ++ [Main.CallSearch {[ "name" := name ]}])%list;
          Main.log := Main.log w |}) ∧
    match o, o' with
    | Raised e, Raised e' => e' = e
    | Cancelled, Cancelled => True
    | _, _ => False
    end.
Proof.
  intros Hsearch Ho.
  unfold Main.get_or_create_assistant, Main.api_call, Main.logger_info,
    mbind, M_bind, mret, M_ret.
  rewrite Hsearch. destruct o as [found|e|]; [done|..]; by eexists.
Qed.
End ClientFailures.

(** X20, on an instance: a service that cannot be reached. *)
Lemma get_or_create_assistant_search_fails_witness :
  @Main.get_or_create_assistant _ offline_client "Creative Assistant" "deep"
    None (Some Main.creative_context) offline_world
  = (Raised (CollaboratorError "connection refused"),
     {| Main.service := ();
        Main.calls := [Main.CallSearch {[ "name" := "Creative Assistant" ]}];
        Main.log := [] |}).
Proof.
  destruct (@get_or_create_assistant_search_fails _ offline_client
              "Creative Assistant" "deep" None (Some Main.creative_context)
              offline_world (Raised (CollaboratorError "connection refused")) ()
              eq_refl eq_refl) as (o' & Hrun & Ho).
  destruct o' as [a|e|]; [done| |done]. by subst e.
Defined.

(** X3, on an instance: a confirmation read back. *)
Lemma think_tool_reads_back_witness :
  Tools.think_tool "enough sources" = "Reflection recorded: enough sources" ∧
  String.substring 21 14 (Tools.think_tool "enough sources") = "enough sources".
Proof.
  split; [reflexivity|].
  destruct (think_tool_reads_back "enough sources" "enough sources")
    as (_ & Hback & _ & Hinj).
  pose proof (Hinj eq_refl) as _. exact Hback.
Defined.

(** X17, on an instance: the configuration of the unit test that turns the
    flag on. *)
Lemma compiled_debug_flag_witness :
  debug (Deep.build_graph sample_workflow sample_delegation sample_researcher
           sample_env {| configurable := Some {[ "debug" := PyBool true ]} |})
  = true.
Proof.
  destruct (compiled_debug_flag sample_workflow sample_delegation
              sample_researcher sample_env
              {| configurable := Some {[ "debug" := PyBool true ]} |})
    as (Hiff & _).
  apply Hiff. exists {[ "debug" := PyBool true ]}, (PyBool true).
  split; [reflexivity|]. split; reflexivity.
Defined.
